(** * OptimizedCompilationInfo: the compilation job descriptor

    A shallow embedding of [src/codegen/optimized-compilation-info.h]
    and the properties its specification states about it.

    The header defines most accessors inline; those are translated
    here line by line.  Member functions that the header only
    declares are modelled from the specification and are marked as
    such where they are defined. *)

From Stdlib Require Import ZArith List Bool String Lia Permutation.
Import ListNotations.
Local Open Scope Z_scope.

(** ** Build configuration and assertions

    [DCHECK] is V8's debug-only assertion: a failed condition aborts
    the process in a DEBUG build and the whole statement is compiled
    out otherwise.  The header itself shows the split: the predicates
    used inside the flag accessors' DCHECKs are declared under
    [#ifdef DEBUG] only. *)

Inductive BuildMode : Type :=
| DebugBuild
| ReleaseBuild.

(** Result of a call that may hit a failed assertion. *)
Inductive Checked (A : Type) : Type :=
| Ok (a : A)
| Fatal.

Arguments Ok {A} a.
Arguments Fatal {A}.

Definition bind {A B : Type} (c : Checked A) (k : A -> Checked B) : Checked B :=
  match c with
  | Ok a => k a
  | Fatal => Fatal
  end.

Notation "c ;;; k" := (bind c (fun _ => k))
  (at level 61, right associativity).
Notation "'call' x <- c ; k" := (bind c (fun x => k))
  (at level 61, x name, c at next level, right associativity).

Definition DCHECK (b : BuildMode) (cond : bool) : Checked unit :=
  match b with
  | DebugBuild => if cond then Ok tt else Fatal
  | ReleaseBuild => Ok tt
  end.

(** ** Types the header takes from other headers *)

(** Raw pointers and [std::unique_ptr]: the address of the pointee,
    [None] for [nullptr].  Moving out of a [unique_ptr] leaves it
    null. *)
Definition Address : Type := nat.
Definition RawPtr : Type := option Address.
Definition unique_ptr : Type := option Address.

(** Modelled from the spec: [Handle<T>] (src/handles/handles.h) is a
    managed reference, valid within a scope; a null handle refers to
    nothing. *)
Record HandleLocation : Type := {
  scope_ : nat;
  object_ : Address
}.
Definition Handle : Type := option HandleLocation.

Definition is_null (h : Handle) : bool :=
  match h with
  | None => true
  | Some _ => false
  end.

(** Modelled from the spec: [Code::Kind] (src/objects/code.h), "one of
    OptimizedFunction, WasmFunction, OtherStub/Builtin".  The header
    names [OPTIMIZED_FUNCTION] and [WASM_FUNCTION]. *)
Inductive CodeKind : Type :=
| OPTIMIZED_FUNCTION
| WASM_FUNCTION
| STUB
| BUILTIN.

Definition CodeKind_eqb (a b : CodeKind) : bool :=
  match a, b with
  | OPTIMIZED_FUNCTION, OPTIMIZED_FUNCTION => true
  | WASM_FUNCTION, WASM_FUNCTION => true
  | STUB, STUB => true
  | BUILTIN, BUILTIN => true
  | _, _ => false
  end.

(** Modelled from the spec: [BailoutId] (src/utils/utils.h), a bytecode
    offset with a distinguished "none" value. *)
Record BailoutId : Type := { id_ : Z }.

Definition kNoneId : Z := -1.

Module BailoutIdOps.
Definition None_ : BailoutId := {| id_ := kNoneId |}.
Definition IsNone (b : BailoutId) : bool := id_ b =? kNoneId.
End BailoutIdOps.

(** Modelled from the spec: [BailoutReason] (src/codegen/bailout-reason.h);
    [kNoReason] means "not yet failed". *)
Inductive BailoutReason : Type :=
| kNoReason
| kUnknown
| kReason (code : nat).

(** [PoisoningMitigationLevel] (src/common/globals.h). *)
Inductive PoisoningMitigationLevel : Type :=
| kPoisonAll
| kDontPoison
| kPoisonCriticalOnly.

(** [SourcePosition] is carried as its raw value. *)
Definition SourcePosition : Type := Z.

(** [InliningPosition] (src/codegen/source-position.h): a source
    position and the id of the inlined function it belongs to. *)
Module InliningPosition.
Record t : Type := {
  position : SourcePosition;
  inlined_function_id : Z
}.
End InliningPosition.

(** ** Integer conversions *)

(** [static_cast<int>] of a [size_t]: the value modulo 2^32, read as a
    two's complement 32-bit integer. *)
Definition static_cast_int (z : Z) : Z :=
  (z + 2 ^ 31) mod 2 ^ 32 - 2 ^ 31.

(** ** Flags *)

(** The [FLAGS(V)] list: one constructor per row. *)
Inductive Flag : Type :=
| kFunctionContextSpecializing
| kInlining
| kDisableFutureOptimization
| kSplitting
| kSourcePositions
| kBailoutOnUninitialized
| kLoopPeeling
| kUntrustedCodeMitigations
| kSwitchJumpTable
| kCalledWithCodeStartRegister
| kPoisonRegisterArguments
| kAllocationFolding
| kAnalyzeEnvironmentLiveness
| kTraceTurboJson
| kTraceTurboGraph
| kTraceTurboScheduled
| kTraceTurboAllocation
| kTraceHeapBroker
| kWasmRuntimeExceptionSupport
| kTurboControlFlowAwareAllocation
| kTurboPreprocessRanges
| kConcurrentInlining
| kNativeContextIndependent.

(** Third column of [FLAGS(V)]. *)
Definition Bit (f : Flag) : Z :=
  match f with
  | kFunctionContextSpecializing => 0
  | kInlining => 1
  | kDisableFutureOptimization => 2
  | kSplitting => 3
  | kSourcePositions => 4
  | kBailoutOnUninitialized => 5
  | kLoopPeeling => 6
  | kUntrustedCodeMitigations => 7
  | kSwitchJumpTable => 8
  | kCalledWithCodeStartRegister => 9
  | kPoisonRegisterArguments => 10
  | kAllocationFolding => 11
  | kAnalyzeEnvironmentLiveness => 12
  | kTraceTurboJson => 13
  | kTraceTurboGraph => 14
  | kTraceTurboScheduled => 15
  | kTraceTurboAllocation => 16
  | kTraceHeapBroker => 17
  | kWasmRuntimeExceptionSupport => 18
  | kTurboControlFlowAwareAllocation => 19
  | kTurboPreprocessRanges => 20
  | kConcurrentInlining => 21
  | kNativeContextIndependent => 22
  end.

(** [DEF_ENUM]: [k##Camel = 1 << Bit]. *)
Definition DEF_ENUM (f : Flag) : Z := Z.shiftl 1 (Bit f).

Definition all_flags : list Flag :=
  [ kFunctionContextSpecializing; kInlining; kDisableFutureOptimization;
    kSplitting; kSourcePositions; kBailoutOnUninitialized; kLoopPeeling;
    kUntrustedCodeMitigations; kSwitchJumpTable;
    kCalledWithCodeStartRegister; kPoisonRegisterArguments;
    kAllocationFolding; kAnalyzeEnvironmentLiveness; kTraceTurboJson;
    kTraceTurboGraph; kTraceTurboScheduled; kTraceTurboAllocation;
    kTraceHeapBroker; kWasmRuntimeExceptionSupport;
    kTurboControlFlowAwareAllocation; kTurboPreprocessRanges;
    kConcurrentInlining; kNativeContextIndependent ].

(** ** The inlining ledger's entries *)

Module InlinedFunctionHolder.

Record t : Type := {
  shared_info : Handle;
  bytecode_array : Handle;
  position : InliningPosition.t
}.

(** [position.inlined_function_id = static_cast<int>(inlined_function_id)];
    the argument is a [size_t]. *)
Definition RegisterInlinedFunctionId (inlined_function_id : Z) (h : t) : t :=
  {| shared_info := shared_info h;
     bytecode_array := bytecode_array h;
     position :=
       {| InliningPosition.position :=
            InliningPosition.position (position h);
          InliningPosition.inlined_function_id :=
            static_cast_int inlined_function_id |} |}.

End InlinedFunctionHolder.

Definition InlinedFunctionList : Type := list InlinedFunctionHolder.t.

(** ** The descriptor

    The private data members of [OptimizedCompilationInfo], in the
    order of the header. *)

Record OptimizedCompilationInfo : Type := mkInfo {
  flags_ : Z;                                (* unsigned *)
  poisoning_level_ : PoisoningMitigationLevel;
  code_kind_ : CodeKind;                     (* const *)
  builtin_index_ : Z;                        (* int32_t *)
  bytecode_array_ : Handle;
  shared_info_ : Handle;
  closure_ : Handle;
  code_ : Handle;
  profiler_data_ : RawPtr;
  wasm_compilation_result_ : unique_ptr;
  osr_offset_ : BailoutId;
  zone_ : RawPtr;                            (* const *)
  persistent_handles_ : unique_ptr;
  bailout_reason_ : BailoutReason;
  inlined_functions_ : InlinedFunctionList;
  optimization_id_ : Z;                      (* const int *)
  inlined_bytecode_size_ : Z;                (* unsigned *)
  osr_frame_ : RawPtr;
  debug_name_ : string;
  trace_turbo_filename_ : option string;
  tick_counter_ : nat;
  ph_ : unique_ptr
}.

Definition kNoOptimizationId : Z := -1.

(** Assignments to one data member. *)

Definition with_flags (v : Z) (d : OptimizedCompilationInfo) :=
  let 'mkInfo fl pl ck bi ba si cl co pd wr oo zo phs br ifs oid ibs ofr dn tf tc ph := d in
  mkInfo v pl ck bi ba si cl co pd wr oo zo phs br ifs oid ibs ofr dn tf tc ph.

Definition with_poisoning_level (v : PoisoningMitigationLevel) (d : OptimizedCompilationInfo) :=
  let 'mkInfo fl pl ck bi ba si cl co pd wr oo zo phs br ifs oid ibs ofr dn tf tc ph := d in
  mkInfo fl v ck bi ba si cl co pd wr oo zo phs br ifs oid ibs ofr dn tf tc ph.

Definition with_builtin_index (v : Z) (d : OptimizedCompilationInfo) :=
  let 'mkInfo fl pl ck bi ba si cl co pd wr oo zo phs br ifs oid ibs ofr dn tf tc ph := d in
  mkInfo fl pl ck v ba si cl co pd wr oo zo phs br ifs oid ibs ofr dn tf tc ph.

Definition with_bytecode_array (v : Handle) (d : OptimizedCompilationInfo) :=
  let 'mkInfo fl pl ck bi ba si cl co pd wr oo zo phs br ifs oid ibs ofr dn tf tc ph := d in
  mkInfo fl pl ck bi v si cl co pd wr oo zo phs br ifs oid ibs ofr dn tf tc ph.

Definition with_shared_info (v : Handle) (d : OptimizedCompilationInfo) :=
  let 'mkInfo fl pl ck bi ba si cl co pd wr oo zo phs br ifs oid ibs ofr dn tf tc ph := d in
  mkInfo fl pl ck bi ba v cl co pd wr oo zo phs br ifs oid ibs ofr dn tf tc ph.

Definition with_closure (v : Handle) (d : OptimizedCompilationInfo) :=
  let 'mkInfo fl pl ck bi ba si cl co pd wr oo zo phs br ifs oid ibs ofr dn tf tc ph := d in
  mkInfo fl pl ck bi ba si v co pd wr oo zo phs br ifs oid ibs ofr dn tf tc ph.

Definition with_code (v : Handle) (d : OptimizedCompilationInfo) :=
  let 'mkInfo fl pl ck bi ba si cl co pd wr oo zo phs br ifs oid ibs ofr dn tf tc ph := d in
  mkInfo fl pl ck bi ba si cl v pd wr oo zo phs br ifs oid ibs ofr dn tf tc ph.

Definition with_profiler_data (v : RawPtr) (d : OptimizedCompilationInfo) :=
  let 'mkInfo fl pl ck bi ba si cl co pd wr oo zo phs br ifs oid ibs ofr dn tf tc ph := d in
  mkInfo fl pl ck bi ba si cl co v wr oo zo phs br ifs oid ibs ofr dn tf tc ph.

Definition with_wasm_compilation_result (v : unique_ptr) (d : OptimizedCompilationInfo) :=
  let 'mkInfo fl pl ck bi ba si cl co pd wr oo zo phs br ifs oid ibs ofr dn tf tc ph := d in
  mkInfo fl pl ck bi ba si cl co pd v oo zo phs br ifs oid ibs ofr dn tf tc ph.

Definition with_osr_offset (v : BailoutId) (d : OptimizedCompilationInfo) :=
  let 'mkInfo fl pl ck bi ba si cl co pd wr oo zo phs br ifs oid ibs ofr dn tf tc ph := d in
  mkInfo fl pl ck bi ba si cl co pd wr v zo phs br ifs oid ibs ofr dn tf tc ph.

Definition with_bailout_reason (v : BailoutReason) (d : OptimizedCompilationInfo) :=
  let 'mkInfo fl pl ck bi ba si cl co pd wr oo zo phs br ifs oid ibs ofr dn tf tc ph := d in
  mkInfo fl pl ck bi ba si cl co pd wr oo zo phs v ifs oid ibs ofr dn tf tc ph.

Definition with_inlined_functions (v : InlinedFunctionList) (d : OptimizedCompilationInfo) :=
  let 'mkInfo fl pl ck bi ba si cl co pd wr oo zo phs br ifs oid ibs ofr dn tf tc ph := d in
  mkInfo fl pl ck bi ba si cl co pd wr oo zo phs br v oid ibs ofr dn tf tc ph.

Definition with_inlined_bytecode_size (v : Z) (d : OptimizedCompilationInfo) :=
  let 'mkInfo fl pl ck bi ba si cl co pd wr oo zo phs br ifs oid ibs ofr dn tf tc ph := d in
  mkInfo fl pl ck bi ba si cl co pd wr oo zo phs br ifs oid v ofr dn tf tc ph.

Definition with_osr_frame (v : RawPtr) (d : OptimizedCompilationInfo) :=
  let 'mkInfo fl pl ck bi ba si cl co pd wr oo zo phs br ifs oid ibs ofr dn tf tc ph := d in
  mkInfo fl pl ck bi ba si cl co pd wr oo zo phs br ifs oid ibs v dn tf tc ph.

Definition with_debug_name (v : string) (d : OptimizedCompilationInfo) :=
  let 'mkInfo fl pl ck bi ba si cl co pd wr oo zo phs br ifs oid ibs ofr dn tf tc ph := d in
  mkInfo fl pl ck bi ba si cl co pd wr oo zo phs br ifs oid ibs ofr v tf tc ph.

Definition with_trace_turbo_filename (v : option string) (d : OptimizedCompilationInfo) :=
  let 'mkInfo fl pl ck bi ba si cl co pd wr oo zo phs br ifs oid ibs ofr dn tf tc ph := d in
  mkInfo fl pl ck bi ba si cl co pd wr oo zo phs br ifs oid ibs ofr dn v tc ph.

Definition with_tick_counter (v : nat) (d : OptimizedCompilationInfo) :=
  let 'mkInfo fl pl ck bi ba si cl co pd wr oo zo phs br ifs oid ibs ofr dn tf tc ph := d in
  mkInfo fl pl ck bi ba si cl co pd wr oo zo phs br ifs oid ibs ofr dn tf v ph.

Definition with_ph (v : unique_ptr) (d : OptimizedCompilationInfo) :=
  let 'mkInfo fl pl ck bi ba si cl co pd wr oo zo phs br ifs oid ibs ofr dn tf tc ph := d in
  mkInfo fl pl ck bi ba si cl co pd wr oo zo phs br ifs oid ibs ofr dn tf tc v.

(** ** Member functions defined in the header *)

Definition zone (d : OptimizedCompilationInfo) : RawPtr := zone_ d.

Definition is_osr (d : OptimizedCompilationInfo) : bool :=
  negb (BailoutIdOps.IsNone (osr_offset_ d)).

Definition shared_info (d : OptimizedCompilationInfo) : Handle := shared_info_ d.
Definition has_shared_info (d : OptimizedCompilationInfo) : bool :=
  negb (is_null (shared_info d)).
Definition bytecode_array (d : OptimizedCompilationInfo) : Handle := bytecode_array_ d.
Definition has_bytecode_array (d : OptimizedCompilationInfo) : bool :=
  negb (is_null (bytecode_array_ d)).
Definition closure (d : OptimizedCompilationInfo) : Handle := closure_ d.
Definition code (d : OptimizedCompilationInfo) : Handle := code_ d.
Definition code_kind (d : OptimizedCompilationInfo) : CodeKind := code_kind_ d.
Definition builtin_index (d : OptimizedCompilationInfo) : Z := builtin_index_ d.
Definition set_builtin_index (index : Z) (d : OptimizedCompilationInfo) :=
  with_builtin_index index d.
Definition osr_offset (d : OptimizedCompilationInfo) : BailoutId := osr_offset_ d.
Definition osr_frame (d : OptimizedCompilationInfo) : RawPtr := osr_frame_ d.

Definition SetPoisoningMitigationLevel (poisoning_level : PoisoningMitigationLevel)
    (d : OptimizedCompilationInfo) :=
  with_poisoning_level poisoning_level d.
Definition GetPoisoningMitigationLevel (d : OptimizedCompilationInfo) :=
  poisoning_level_ d.

Definition SetCode (c : Handle) (d : OptimizedCompilationInfo) := with_code c d.

(** Accessors for the different compilation modes. *)
Definition IsOptimizing (d : OptimizedCompilationInfo) : bool :=
  CodeKind_eqb (code_kind d) OPTIMIZED_FUNCTION.

Definition SetOptimizingForOsr (b : BuildMode) (osr_offset : BailoutId)
    (osr_frame : RawPtr) (d : OptimizedCompilationInfo)
    : Checked OptimizedCompilationInfo :=
  DCHECK b (IsOptimizing d) ;;;
  Ok (with_osr_frame osr_frame (with_osr_offset osr_offset d)).

Definition bailout_reason (d : OptimizedCompilationInfo) : BailoutReason :=
  bailout_reason_ d.

Definition optimization_id (b : BuildMode) (d : OptimizedCompilationInfo) : Checked Z :=
  DCHECK b (IsOptimizing d) ;;;
  Ok (optimization_id_ d).

Definition inlined_bytecode_size (d : OptimizedCompilationInfo) : Z :=
  inlined_bytecode_size_ d.
Definition set_inlined_bytecode_size (size : Z) (d : OptimizedCompilationInfo) :=
  with_inlined_bytecode_size size d.

Definition inlined_functions (d : OptimizedCompilationInfo) : InlinedFunctionList :=
  inlined_functions_ d.

Definition trace_turbo_filename (d : OptimizedCompilationInfo) : option string :=
  trace_turbo_filename_ d.
Definition set_trace_turbo_filename (filename : option string)
    (d : OptimizedCompilationInfo) :=
  with_trace_turbo_filename filename d.

Definition tick_counter (d : OptimizedCompilationInfo) : nat := tick_counter_ d.

Definition profiler_data (d : OptimizedCompilationInfo) : RawPtr := profiler_data_ d.
Definition set_profiler_data (p : RawPtr) (d : OptimizedCompilationInfo) :=
  with_profiler_data p d.

(** [return std::move(ph_);] hands out the pointer and leaves [ph_]
    null.  There is no assertion in front of it. *)
Definition DetachPersistentHandles (d : OptimizedCompilationInfo)
    : unique_ptr * OptimizedCompilationInfo :=
  (ph_ d, with_ph None d).

(** [flags_ |= flag] *)
Definition SetFlag (flag : Flag) (d : OptimizedCompilationInfo) :=
  with_flags (Z.lor (flags_ d) (DEF_ENUM flag)) d.

(** [(flags_ & flag) != 0] *)
Definition GetFlag (flag : Flag) (d : OptimizedCompilationInfo) : bool :=
  negb (Z.land (flags_ d) (DEF_ENUM flag) =? 0).

(** ** Member functions the header only declares

    Their bodies live in the implementation file, which is not part of
    the sources at hand.  Each is modelled from the specification. *)

(** Modelled from the spec: [InlinedFunctionHolder]'s constructor is
    declared without a body.  It stores the two references and the
    source position; the id is "assigned at registration time", so it
    starts out as "not inlined". *)
Definition kNotInlined : Z := -1.

Definition new_InlinedFunctionHolder (inlined_shared_info inlined_bytecode : Handle)
    (pos : SourcePosition) : InlinedFunctionHolder.t :=
  {| InlinedFunctionHolder.shared_info := inlined_shared_info;
     InlinedFunctionHolder.bytecode_array := inlined_bytecode;
     InlinedFunctionHolder.position :=
       {| InliningPosition.position := pos;
          InliningPosition.inlined_function_id := kNotInlined |} |}.

(** Modelled from the spec: the body of [AddInlinedFunction] is
    missing.  "Appends a new holder, assigns it the next sequential id
    (list size before the append), and returns that id."  The id is
    stored through [RegisterInlinedFunctionId], and the declared return
    type is [int]. *)
Definition AddInlinedFunction (inlined_function inlined_bytecode : Handle)
    (pos : SourcePosition) (d : OptimizedCompilationInfo)
    : Z * OptimizedCompilationInfo :=
  let size := Z.of_nat (List.length (inlined_functions_ d)) in
  let holder :=
    InlinedFunctionHolder.RegisterInlinedFunctionId size
      (new_InlinedFunctionHolder inlined_function inlined_bytecode pos) in
  (InliningPosition.inlined_function_id (InlinedFunctionHolder.position holder),
   with_inlined_functions (inlined_functions_ d ++ [holder]) d).

(** Modelled from the spec: the body of [AbortOptimization] is missing.
    "Records the reason; if the job is an optimizing-function job,
    additionally raises the disable-future-optimization flag." *)
Definition AbortOptimization (reason : BailoutReason) (d : OptimizedCompilationInfo)
    : OptimizedCompilationInfo :=
  let d1 := with_bailout_reason reason d in
  if IsOptimizing d1 then SetFlag kDisableFutureOptimization d1 else d1.

(** Modelled from the spec: the body of [RetryOptimization] is missing.
    "Records the reason but does not disable future optimization." *)
Definition RetryOptimization (reason : BailoutReason) (d : OptimizedCompilationInfo)
    : OptimizedCompilationInfo :=
  with_bailout_reason reason d.

(** Modelled from the spec: the body of [set_persistent_handles] is
    missing.  "Installs an exclusively-owned reference bundle into the
    descriptor; fails (programmer error) if one is already installed",
    a programmer error being an assertion of debug builds.  The spec
    knows a single bundle, the one [DetachPersistentHandles] hands out,
    which is the member [ph_]; the header also declares a second member
    [persistent_handles_], and the sources do not show which of the two
    the setter fills. *)
Definition set_persistent_handles (b : BuildMode) (persistent_handles : unique_ptr)
    (d : OptimizedCompilationInfo) : Checked OptimizedCompilationInfo :=
  DCHECK b (match ph_ d with None => true | Some _ => false end) ;;;
  Ok (with_ph persistent_handles d).

(** Modelled from the spec: [SetWasmCompilationResult] and
    [ReleaseWasmCompilationResult] are declared without bodies.  They
    "hold an exclusively-owned alternate-backend result"; "release
    transfers ownership out". *)
Definition SetWasmCompilationResult (result : unique_ptr) (d : OptimizedCompilationInfo) :=
  with_wasm_compilation_result result d.

Definition ReleaseWasmCompilationResult (d : OptimizedCompilationInfo)
    : unique_ptr * OptimizedCompilationInfo :=
  (wasm_compilation_result_ d, with_wasm_compilation_result None d).

(** Modelled from the spec: [ReopenHandlesInNewHandleScope] is declared
    without a body.  It "re-establishes every currently-held managed
    reference in a fresh local scope valid on the calling thread". *)
Definition reopen (scope : nat) (h : Handle) : Handle :=
  match h with
  | None => None
  | Some l => Some {| scope_ := scope; object_ := object_ l |}
  end.

Definition reopen_holder (scope : nat) (h : InlinedFunctionHolder.t) :=
  {| InlinedFunctionHolder.shared_info :=
       reopen scope (InlinedFunctionHolder.shared_info h);
     InlinedFunctionHolder.bytecode_array :=
       reopen scope (InlinedFunctionHolder.bytecode_array h);
     InlinedFunctionHolder.position := InlinedFunctionHolder.position h |}.

Definition ReopenHandlesInNewHandleScope (scope : nat) (d : OptimizedCompilationInfo) :=
  with_inlined_functions (map (reopen_holder scope) (inlined_functions_ d))
    (with_code (reopen scope (code_ d))
      (with_closure (reopen scope (closure_ d))
        (with_shared_info (reopen scope (shared_info_ d))
          (with_bytecode_array (reopen scope (bytecode_array_ d)) d)))).

(** Modelled from the spec: [ConfigureFlags], the single derivation
    step run at construction, "seeds initial flag values from
    process-wide compiler configuration".  The configuration is taken
    as the list of flags it turns on. *)
Definition ConfigureFlags (config : list Flag) (d : OptimizedCompilationInfo) :=
  fold_left (fun acc f => SetFlag f acc) config d.

(** The default member initializers of the header; the three [const]
    members are set by the constructors. *)
Definition member_defaults (code_kind : CodeKind) (zone : RawPtr) (optimization_id : Z)
    : OptimizedCompilationInfo :=
  {| flags_ := 0;
     poisoning_level_ := kDontPoison;
     code_kind_ := code_kind;
     builtin_index_ := -1;
     bytecode_array_ := None;
     shared_info_ := None;
     closure_ := None;
     code_ := None;
     profiler_data_ := None;
     wasm_compilation_result_ := None;
     osr_offset_ := BailoutIdOps.None_;
     zone_ := zone;
     persistent_handles_ := None;
     bailout_reason_ := kNoReason;
     inlined_functions_ := [];
     optimization_id_ := optimization_id;
     inlined_bytecode_size_ := 0;
     osr_frame_ := None;
     debug_name_ := EmptyString;
     trace_turbo_filename_ := None;
     tick_counter_ := 0%nat;
     ph_ := None |}.

(** Modelled from the spec: both constructors are declared without
    bodies.  "Optimize a function" mode takes the zone, the runtime
    instance, the function's shared info and closure and the
    independent-of-native-context flag; the job id and the bytecode
    reference it reads through the runtime instance and the shared
    info are arguments here. *)
Definition OptimizedCompilationInfo_function (zone : RawPtr) (optimization_id : Z)
    (shared closure bytecode : Handle) (native_context_independent : bool)
    (config : list Flag) : OptimizedCompilationInfo :=
  let d := member_defaults OPTIMIZED_FUNCTION zone optimization_id in
  let d := with_closure closure (with_shared_info shared (with_bytecode_array bytecode d)) in
  let d := if native_context_independent
           then SetFlag kNativeContextIndependent d else d in
  ConfigureFlags config d.

(** "Compile a stub/module" mode takes the debug name, the zone and
    the code kind; the job id is the sentinel. *)
Definition OptimizedCompilationInfo_stub (debug_name : string) (zone : RawPtr)
    (code_kind : CodeKind) (config : list Flag) : OptimizedCompilationInfo :=
  ConfigureFlags config
    (with_debug_name debug_name (member_defaults code_kind zone kNoOptimizationId)).

(** Modelled from the spec: an instance of the validity rules of the
    flag registry, of the shape "a flag is valid only for the optimize
    a function mode" for the inlining-related flags and "always valid"
    for the rest.  It instantiates the validity predicates below in
    examples. *)
Definition optimizing_only (flag : Flag) (d : OptimizedCompilationInfo) : bool :=
  match flag with
  | kFunctionContextSpecializing | kInlining | kConcurrentInlining => IsOptimizing d
  | _ => true
  end.

(** ** Flag accessors and the operations of a job

    [FlagGetIsValid] and [FlagSetIsValid] are declared (for DEBUG
    builds) without bodies; the accessors are stated for any pair of
    such predicates. *)

Section FlagAccessors.

Variables FlagGetIsValid FlagSetIsValid : Flag -> OptimizedCompilationInfo -> bool.

(** [DEF_GETTER]: [DCHECK(FlagGetIsValid(k##Camel)); return GetFlag(k##Camel);] *)
Definition DEF_GETTER (b : BuildMode) (flag : Flag) (d : OptimizedCompilationInfo)
    : Checked bool :=
  DCHECK b (FlagGetIsValid flag d) ;;;
  Ok (GetFlag flag d).

(** [DEF_SETTER]: [DCHECK(FlagSetIsValid(k##Camel)); SetFlag(k##Camel);] *)
Definition DEF_SETTER (b : BuildMode) (flag : Flag) (d : OptimizedCompilationInfo)
    : Checked OptimizedCompilationInfo :=
  DCHECK b (FlagSetIsValid flag d) ;;;
  Ok (SetFlag flag d).

Definition disable_future_optimization (b : BuildMode) :=
  DEF_GETTER b kDisableFutureOptimization.
Definition set_disable_future_optimization (b : BuildMode) :=
  DEF_SETTER b kDisableFutureOptimization.

(** The public member functions that change a descriptor.
    [inlined_functions()] and [tick_counter()] return mutable
    references, through which a caller can store any ledger and any
    tick count. *)
Inductive Operation : Type :=
| op_set_flag (flag : Flag)
| op_set_builtin_index (index : Z)
| op_SetPoisoningMitigationLevel (level : PoisoningMitigationLevel)
| op_SetCode (c : Handle)
| op_SetWasmCompilationResult (result : unique_ptr)
| op_ReleaseWasmCompilationResult
| op_SetOptimizingForOsr (osr_offset : BailoutId) (osr_frame : RawPtr)
| op_set_persistent_handles (persistent_handles : unique_ptr)
| op_ReopenHandlesInNewHandleScope (scope : nat)
| op_AbortOptimization (reason : BailoutReason)
| op_RetryOptimization (reason : BailoutReason)
| op_set_inlined_bytecode_size (size : Z)
| op_write_inlined_functions (l : InlinedFunctionList)
| op_AddInlinedFunction (inlined_function inlined_bytecode : Handle)
    (pos : SourcePosition)
| op_set_trace_turbo_filename (filename : option string)
| op_set_profiler_data (p : RawPtr)
| op_write_tick_counter (ticks : nat)
| op_DetachPersistentHandles.

Definition step (b : BuildMode) (op : Operation) (d : OptimizedCompilationInfo)
    : Checked OptimizedCompilationInfo :=
  match op with
  | op_set_flag flag => DEF_SETTER b flag d
  | op_set_builtin_index index => Ok (set_builtin_index index d)
  | op_SetPoisoningMitigationLevel level => Ok (SetPoisoningMitigationLevel level d)
  | op_SetCode c => Ok (SetCode c d)
  | op_SetWasmCompilationResult result => Ok (SetWasmCompilationResult result d)
  | op_ReleaseWasmCompilationResult => Ok (snd (ReleaseWasmCompilationResult d))
  | op_SetOptimizingForOsr osr_offset osr_frame =>
      SetOptimizingForOsr b osr_offset osr_frame d
  | op_set_persistent_handles persistent_handles =>
      set_persistent_handles b persistent_handles d
  | op_ReopenHandlesInNewHandleScope scope => Ok (ReopenHandlesInNewHandleScope scope d)
  | op_AbortOptimization reason => Ok (AbortOptimization reason d)
  | op_RetryOptimization reason => Ok (RetryOptimization reason d)
  | op_set_inlined_bytecode_size size => Ok (set_inlined_bytecode_size size d)
  | op_write_inlined_functions l => Ok (with_inlined_functions l d)
  | op_AddInlinedFunction f bc pos => Ok (snd (AddInlinedFunction f bc pos d))
  | op_set_trace_turbo_filename filename => Ok (set_trace_turbo_filename filename d)
  | op_set_profiler_data p => Ok (set_profiler_data p d)
  | op_write_tick_counter ticks => Ok (with_tick_counter ticks d)
  | op_DetachPersistentHandles => Ok (snd (DetachPersistentHandles d))
  end.

Fixpoint run (b : BuildMode) (ops : list Operation) (d : OptimizedCompilationInfo)
    : Checked OptimizedCompilationInfo :=
  match ops with
  | [] => Ok d
  | op :: rest => call d' <- step b op d ; run b rest d'
  end.

End FlagAccessors.

(** Successive calls of [AddInlinedFunction], with the ids they return. *)
Fixpoint AddInlinedFunctions (calls : list (Handle * Handle * SourcePosition))
    (d : OptimizedCompilationInfo) : list Z * OptimizedCompilationInfo :=
  match calls with
  | [] => ([], d)
  | (f, bc, pos) :: rest =>
      let '(id, d1) := AddInlinedFunction f bc pos d in
      let '(ids, d2) := AddInlinedFunctions rest d1 in
      (id :: ids, d2)
  end.

(** A flag is declared invalid for a code kind when the validity
    predicate rejects it on every descriptor of that kind. *)
Definition declared_invalid (valid : Flag -> OptimizedCompilationInfo -> bool)
    (flag : Flag) (kind : CodeKind) : Prop :=
  forall d, code_kind d = kind -> valid flag d = false.

(** What no operation does: change the code kind or the job id, or
    clear a flag. *)
Definition preserved (d d' : OptimizedCompilationInfo) : Prop :=
  code_kind_ d' = code_kind_ d
  /\ optimization_id_ d' = optimization_id_ d
  /\ (forall F, GetFlag F d = true -> GetFlag F d' = true).

(** The ledger entry of a call once it carries an id, and the id an
    entry carries. *)
Definition registered_holder (id : Z) (args : Handle * Handle * SourcePosition)
    : InlinedFunctionHolder.t :=
  let '(inlined_function, inlined_bytecode, pos) := args in
  {| InlinedFunctionHolder.shared_info := inlined_function;
     InlinedFunctionHolder.bytecode_array := inlined_bytecode;
     InlinedFunctionHolder.position :=
       {| InliningPosition.position := pos;
          InliningPosition.inlined_function_id := id |} |}.

Definition holder_id (h : InlinedFunctionHolder.t) : Z :=
  InliningPosition.inlined_function_id (InlinedFunctionHolder.position h).

(** The entries [size], [size + 1], ... that a sequence of calls adds to
    a ledger of [size] entries. *)
Definition registered_holders (size : nat) (calls : list (Handle * Handle * SourcePosition))
    : InlinedFunctionList :=
  map (fun ic => registered_holder (Z.of_nat (fst ic)) (snd ic))
      (combine (seq size (List.length calls)) calls).

(** ** Two jobs used in examples *)

(** A stub job, as in the spec: debug name [Stub123], kind [STUB]. *)
Definition stub_job : OptimizedCompilationInfo :=
  OptimizedCompilationInfo_stub "Stub123" (Some 64%nat) STUB [].

(** An optimizing job with inlining and loop peeling switched on by the
    configuration. *)
Definition function_job : OptimizedCompilationInfo :=
  OptimizedCompilationInfo_function (Some 64%nat) 7
    (Some {| scope_ := 0%nat; object_ := 100%nat |})
    (Some {| scope_ := 0%nat; object_ := 101%nat |})
    (Some {| scope_ := 0%nat; object_ := 102%nat |})
    false [kInlining; kLoopPeeling].

(** Three inlining requests. *)
Definition three_calls : list (Handle * Handle * SourcePosition) :=
  [ (Some {| scope_ := 0%nat; object_ := 200%nat |},
     Some {| scope_ := 0%nat; object_ := 201%nat |}, 10);
    (Some {| scope_ := 0%nat; object_ := 210%nat |},
     Some {| scope_ := 0%nat; object_ := 211%nat |}, 20);
    (None, None, 30) ].

(** As many inlining requests as there are non-negative [int]s plus
    one: 2^31 of them. *)
Definition anonymous_call : Handle * Handle * SourcePosition := (None, None, 0).

Definition int_range_calls : list (Handle * Handle * SourcePosition) :=
  repeat anonymous_call (Z.to_nat (2 ^ 31)).

(** ** Operations whose body the header gives

    The operations of [Operation] that are defined inline in the
    header, as opposed to those it only declares. *)
Definition defined_inline (op : Operation) : bool :=
  match op with
  | op_set_flag _ => true
  | op_set_builtin_index _ => true
  | op_SetPoisoningMitigationLevel _ => true
  | op_SetCode _ => true
  | op_SetOptimizingForOsr _ _ => true
  | op_set_inlined_bytecode_size _ => true
  | op_write_inlined_functions _ => true
  | op_set_trace_turbo_filename _ => true
  | op_set_profiler_data _ => true
  | op_write_tick_counter _ => true
  | op_DetachPersistentHandles => true
  | op_SetWasmCompilationResult _ => false
  | op_ReleaseWasmCompilationResult => false
  | op_set_persistent_handles _ => false
  | op_ReopenHandlesInNewHandleScope _ => false
  | op_AbortOptimization _ => false
  | op_RetryOptimization _ => false
  | op_AddInlinedFunction _ _ _ => false
  end.

(** The data members, by name. *)
Inductive Member : Type :=
| m_flags
| m_poisoning_level
| m_code_kind
| m_builtin_index
| m_bytecode_array
| m_shared_info
| m_closure
| m_code
| m_profiler_data
| m_wasm_compilation_result
| m_osr_offset
| m_zone
| m_persistent_handles
| m_bailout_reason
| m_inlined_functions
| m_optimization_id
| m_inlined_bytecode_size
| m_osr_frame
| m_debug_name
| m_trace_turbo_filename
| m_tick_counter
| m_ph.

(** Two descriptors agree on a member. *)
Definition same (m : Member) (d d' : OptimizedCompilationInfo) : Prop :=
  match m with
  | m_flags => flags_ d' = flags_ d
  | m_poisoning_level => poisoning_level_ d' = poisoning_level_ d
  | m_code_kind => code_kind_ d' = code_kind_ d
  | m_builtin_index => builtin_index_ d' = builtin_index_ d
  | m_bytecode_array => bytecode_array_ d' = bytecode_array_ d
  | m_shared_info => shared_info_ d' = shared_info_ d
  | m_closure => closure_ d' = closure_ d
  | m_code => code_ d' = code_ d
  | m_profiler_data => profiler_data_ d' = profiler_data_ d
  | m_wasm_compilation_result =>
      wasm_compilation_result_ d' = wasm_compilation_result_ d
  | m_osr_offset => osr_offset_ d' = osr_offset_ d
  | m_zone => zone_ d' = zone_ d
  | m_persistent_handles => persistent_handles_ d' = persistent_handles_ d
  | m_bailout_reason => bailout_reason_ d' = bailout_reason_ d
  | m_inlined_functions => inlined_functions_ d' = inlined_functions_ d
  | m_optimization_id => optimization_id_ d' = optimization_id_ d
  | m_inlined_bytecode_size => inlined_bytecode_size_ d' = inlined_bytecode_size_ d
  | m_osr_frame => osr_frame_ d' = osr_frame_ d
  | m_debug_name => debug_name_ d' = debug_name_ d
  | m_trace_turbo_filename => trace_turbo_filename_ d' = trace_turbo_filename_ d
  | m_tick_counter => tick_counter_ d' = tick_counter_ d
  | m_ph => ph_ d' = ph_ d
  end.

(** The members the body of an inline operation assigns to. *)
Definition writes (op : Operation) : list Member :=
  match op with
  | op_set_flag _ => [m_flags]
  | op_set_builtin_index _ => [m_builtin_index]
  | op_SetPoisoningMitigationLevel _ => [m_poisoning_level]
  | op_SetCode _ => [m_code]
  | op_SetOptimizingForOsr _ _ => [m_osr_offset; m_osr_frame]
  | op_set_inlined_bytecode_size _ => [m_inlined_bytecode_size]
  | op_write_inlined_functions _ => [m_inlined_functions]
  | op_set_trace_turbo_filename _ => [m_trace_turbo_filename]
  | op_set_profiler_data _ => [m_profiler_data]
  | op_write_tick_counter _ => [m_tick_counter]
  | op_DetachPersistentHandles => [m_ph]
  | _ => []
  end.

(** Calling the setters of a list of flags, one after the other. *)
Definition set_each (flags : list Flag) (d : OptimizedCompilationInfo)
    : OptimizedCompilationInfo :=
  fold_left (fun acc flag => SetFlag flag acc) flags d.

(** The flag word that answers the 23 getters as [get] does. *)
Definition flag_word_of (get : Flag -> bool) : Z :=
  fold_right (fun flag acc => Z.lor (if get flag then DEF_ENUM flag else 0) acc)
             0 all_flags.

(** An OSR compile is an optimizing job. *)
Definition osr_consistent (d : OptimizedCompilationInfo) : bool :=
  implb (is_osr d) (IsOptimizing d).

(** A second stub job, of kind [BUILTIN], and two OSR entry points. *)
Definition builtin_job : OptimizedCompilationInfo :=
  with_builtin_index 12 (member_defaults BUILTIN (Some 64%nat) kNoOptimizationId).

Definition loop_entry : BailoutId := {| id_ := 42 |}.

(** A short run of inline operations. *)
Definition inline_run : list Operation :=
  [ op_set_flag kSplitting; op_SetCode (Some {| scope_ := 0%nat; object_ := 300%nat |});
    op_SetOptimizingForOsr loop_entry (Some 9%nat); op_set_builtin_index 3;
    op_DetachPersistentHandles ].

(** What [inline_run] makes of [function_job]. *)
Definition inline_run_result : OptimizedCompilationInfo :=
  with_ph None
    (with_builtin_index 3
      (with_osr_frame (Some 9%nat)
        (with_osr_offset loop_entry
          (with_code (Some {| scope_ := 0%nat; object_ := 300%nat |})
            (SetFlag kSplitting function_job))))).

(** * Properties *)

(** ** Assignments and projections *)

Ltac by_members d := destruct d; reflexivity.

Lemma flags_with_flags v d : flags_ (with_flags v d) = v.
Proof. by_members d. Qed.

Lemma with_flags_same d : with_flags (flags_ d) d = d.
Proof. by_members d. Qed.

Lemma with_flags_twice v w d : with_flags v (with_flags w d) = with_flags v d.
Proof. by_members d. Qed.

Lemma flags_with_bailout_reason r d : flags_ (with_bailout_reason r d) = flags_ d.
Proof. by_members d. Qed.

Lemma code_kind_with_flags v d : code_kind_ (with_flags v d) = code_kind_ d.
Proof. by_members d. Qed.

Lemma code_kind_with_bailout_reason r d :
  code_kind_ (with_bailout_reason r d) = code_kind_ d.
Proof. by_members d. Qed.

Lemma bailout_reason_with_flags v d :
  bailout_reason_ (with_flags v d) = bailout_reason_ d.
Proof. by_members d. Qed.

Lemma bailout_reason_with_bailout_reason r d :
  bailout_reason_ (with_bailout_reason r d) = r.
Proof. by_members d. Qed.

Lemma with_bailout_reason_twice r s d :
  with_bailout_reason r (with_bailout_reason s d) = with_bailout_reason r d.
Proof. by_members d. Qed.

Lemma with_bailout_reason_with_flags r v d :
  with_bailout_reason r (with_flags v d) = with_flags v (with_bailout_reason r d).
Proof. by_members d. Qed.

(** ** The flag bits *)

Lemma Flag_eq_dec (F G : Flag) : {F = G} + {F <> G}.
Proof. decide equality. Defined.

Lemma Bit_range F : 0 <= Bit F <= 22.
Proof. destruct F; simpl; lia. Qed.

Lemma Bit_inj F G : Bit F = Bit G -> F = G.
Proof. destruct F; destruct G; simpl; intro H; solve [reflexivity | discriminate H]. Qed.

Lemma DEF_ENUM_pow2 F : DEF_ENUM F = 2 ^ Bit F.
Proof.
  unfold DEF_ENUM. rewrite Z.shiftl_1_l. reflexivity.
Qed.

Lemma DEF_ENUM_bits F i : Z.testbit (DEF_ENUM F) i = (Bit F =? i).
Proof.
  rewrite DEF_ENUM_pow2. apply Z.pow2_bits_eqb. apply Bit_range.
Qed.

(** Masking with a single bit tests that bit. *)
Lemma land_bit_is_testbit a F :
  negb (Z.land a (DEF_ENUM F) =? 0) = Z.testbit a (Bit F).
Proof.
  destruct (Z.testbit a (Bit F)) eqn:Ha.
  - destruct (Z.eqb_spec (Z.land a (DEF_ENUM F)) 0) as [E | E]; [ | reflexivity].
    exfalso.
    assert (Hb : Z.testbit (Z.land a (DEF_ENUM F)) (Bit F) = true).
    { rewrite Z.land_spec, Ha, DEF_ENUM_bits, Z.eqb_refl. reflexivity. }
    rewrite E, Z.bits_0 in Hb. discriminate Hb.
  - replace (Z.land a (DEF_ENUM F)) with 0; [reflexivity | ].
    symmetry. apply Z.bits_inj'. intros i _.
    rewrite Z.land_spec, DEF_ENUM_bits, Z.bits_0.
    destruct (Z.eqb_spec (Bit F) i) as [E | E].
    + subst i. rewrite Ha. reflexivity.
    + apply andb_false_r.
Qed.

Lemma GetFlag_testbit F d : GetFlag F d = Z.testbit (flags_ d) (Bit F).
Proof. unfold GetFlag. apply land_bit_is_testbit. Qed.

Lemma GetFlag_SetFlag_same F d : GetFlag F (SetFlag F d) = true.
Proof.
  rewrite GetFlag_testbit. unfold SetFlag. rewrite flags_with_flags.
  rewrite Z.lor_spec, DEF_ENUM_bits, Z.eqb_refl. apply orb_true_r.
Qed.

Lemma GetFlag_SetFlag_other F G d : F <> G -> GetFlag G (SetFlag F d) = GetFlag G d.
Proof.
  intro Hne. rewrite !GetFlag_testbit. unfold SetFlag. rewrite flags_with_flags.
  rewrite Z.lor_spec, DEF_ENUM_bits.
  destruct (Z.eqb_spec (Bit F) (Bit G)) as [E | E].
  - elim Hne. apply Bit_inj. exact E.
  - apply orb_false_r.
Qed.

Lemma GetFlag_SetFlag_mono F G d : GetFlag G d = true -> GetFlag G (SetFlag F d) = true.
Proof.
  intro H. destruct (Flag_eq_dec F G) as [E | E].
  - subst G. apply GetFlag_SetFlag_same.
  - rewrite GetFlag_SetFlag_other by exact E. exact H.
Qed.

Lemma SetFlag_idempotent F d : SetFlag F (SetFlag F d) = SetFlag F d.
Proof.
  unfold SetFlag. rewrite flags_with_flags, with_flags_twice.
  f_equal. rewrite <- Z.lor_assoc, Z.lor_diag. reflexivity.
Qed.

(** A flag that is already set: setting it changes nothing. *)
Lemma SetFlag_when_set F d : GetFlag F d = true -> SetFlag F d = d.
Proof.
  intro H. rewrite GetFlag_testbit in H. unfold SetFlag.
  replace (Z.lor (flags_ d) (DEF_ENUM F)) with (flags_ d).
  - apply with_flags_same.
  - apply Z.bits_inj'. intros i _.
    rewrite Z.lor_spec, DEF_ENUM_bits.
    destruct (Z.eqb_spec (Bit F) i) as [E | E].
    + subst i. rewrite H. reflexivity.
    + symmetry. apply orb_false_r.
Qed.

Lemma SetFlag_members F d :
  code_kind_ (SetFlag F d) = code_kind_ d
  /\ bailout_reason_ (SetFlag F d) = bailout_reason_ d
  /\ osr_offset_ (SetFlag F d) = osr_offset_ d
  /\ inlined_functions_ (SetFlag F d) = inlined_functions_ d
  /\ ph_ (SetFlag F d) = ph_ d.
Proof. unfold SetFlag. destruct d; simpl. repeat split. Qed.

Example function_job_flags : flags_ function_job = 66.
Proof. reflexivity. Qed.

Example function_job_inlining :
  DEF_GETTER optimizing_only DebugBuild kInlining function_job = Ok true.
Proof. reflexivity. Qed.

Example stub_job_inlining_debug :
  DEF_GETTER optimizing_only DebugBuild kInlining stub_job = Fatal.
Proof. reflexivity. Qed.

(** ** C10: setting a flag changes that flag only *)

Section FlagFrame.

Variables FlagGetIsValid FlagSetIsValid : Flag -> OptimizedCompilationInfo -> bool.

Lemma DEF_SETTER_Ok b F d d' :
  DEF_SETTER FlagSetIsValid b F d = Ok d' -> d' = SetFlag F d.
Proof.
  unfold DEF_SETTER, DCHECK. destruct b; [destruct (FlagSetIsValid F d) | ];
    simpl; intro H; [ | discriminate H | ]; injection H as H; symmetry; exact H.
Qed.

Lemma DEF_SETTER_release F d :
  DEF_SETTER FlagSetIsValid ReleaseBuild F d = Ok (SetFlag F d).
Proof. reflexivity. Qed.

Lemma DEF_GETTER_release F d :
  DEF_GETTER FlagGetIsValid ReleaseBuild F d = Ok (GetFlag F d).
Proof. reflexivity. Qed.

Lemma DEF_GETTER_Ok b F d v :
  DEF_GETTER FlagGetIsValid b F d = Ok v -> v = GetFlag F d.
Proof.
  unfold DEF_GETTER, DCHECK. destruct b; [destruct (FlagGetIsValid F d) | ];
    simpl; intro H; [ | discriminate H | ]; injection H as H; symmetry; exact H.
Qed.

(** C10.  The 23 enum constants are the powers of two [1 << Bit] for
    the pairwise distinct bit positions 0..22: each has exactly its own
    bit set, and two distinct constants share no bit.  [GetFlag] reads
    the bit of its flag in the flag word.  For two distinct flags F and
    G, a successful [set_F] ors the constant of F into [flags_], which
    sets F, leaves every other member alone and leaves the bit of G
    alone, so the getter of G answers as before (whenever its own
    validity check answers as before; in a release build, always).  A
    second [set_F] changes nothing. *)
Theorem set_flag_changes_only_that_flag :
  (List.length all_flags = 23%nat
   /\ (forall F, In F all_flags /\ 0 <= Bit F <= 22)
   /\ (forall F G, F <> G -> Bit F <> Bit G)
   /\ map Bit all_flags = map Z.of_nat (seq 0 23)
   /\ (forall F, DEF_ENUM F = 2 ^ Bit F)
   /\ (forall F i, Z.testbit (DEF_ENUM F) i = (Bit F =? i))
   /\ (forall F G, F <> G ->
         DEF_ENUM F <> DEF_ENUM G /\ Z.land (DEF_ENUM F) (DEF_ENUM G) = 0)
   /\ (forall F d, GetFlag F d = Z.testbit (flags_ d) (Bit F)))
  /\ (forall b F G d d',
        F <> G ->
        DEF_SETTER FlagSetIsValid b F d = Ok d' ->
        d' = with_flags (flags_ d') d
        /\ GetFlag G d' = GetFlag G d
        /\ (FlagGetIsValid G d' = FlagGetIsValid G d ->
            DEF_GETTER FlagGetIsValid b G d' = DEF_GETTER FlagGetIsValid b G d)
        /\ (forall v v',
              DEF_GETTER FlagGetIsValid b G d = Ok v ->
              DEF_GETTER FlagGetIsValid b G d' = Ok v' -> v' = v)
        /\ flags_ d' = Z.lor (flags_ d) (DEF_ENUM F)
        /\ GetFlag F d' = true
        /\ DEF_GETTER FlagGetIsValid ReleaseBuild F d' = Ok true
        /\ DEF_GETTER FlagGetIsValid ReleaseBuild G d'
           = DEF_GETTER FlagGetIsValid ReleaseBuild G d)
  /\ (forall b F d d' d'',
        DEF_SETTER FlagSetIsValid b F d = Ok d' ->
        DEF_SETTER FlagSetIsValid b F d' = Ok d'' ->
        d'' = d').
Proof.
  split; [ | split].
  - split; [reflexivity | split; [ | split; [ | split; [reflexivity | ]]]].
    + intro F. split; [destruct F; simpl; tauto | apply Bit_range].
    + intros F G Hne E. apply Hne. apply Bit_inj. exact E.
    + split; [apply DEF_ENUM_pow2 | split; [apply DEF_ENUM_bits | split]].
      * intros F G Hne.
        assert (Hbits : Bit F <> Bit G)
          by (intro E; apply Hne; apply Bit_inj; exact E).
        split.
        -- intro E.
           assert (Hb : Z.testbit (DEF_ENUM F) (Bit F) = true)
             by (rewrite DEF_ENUM_bits; apply Z.eqb_refl).
           rewrite E, DEF_ENUM_bits in Hb. apply Z.eqb_eq in Hb.
           apply Hbits. symmetry. exact Hb.
        -- apply Z.bits_inj'. intros i _.
           rewrite Z.land_spec, !DEF_ENUM_bits, Z.bits_0.
           destruct (Z.eqb_spec (Bit F) i) as [E1 | E1]; [ | reflexivity].
           destruct (Z.eqb_spec (Bit G) i) as [E2 | E2]; [ | reflexivity].
           elim Hbits. rewrite E1, E2. reflexivity.
      * intros F d. apply GetFlag_testbit.
  - intros b F G d d' Hne Hset.
    apply DEF_SETTER_Ok in Hset. subst d'.
    assert (Hbit : GetFlag G (SetFlag F d) = GetFlag G d)
      by (apply GetFlag_SetFlag_other; exact Hne).
    repeat apply conj.
    + unfold SetFlag. rewrite flags_with_flags. reflexivity.
    + exact Hbit.
    + intro Hv. unfold DEF_GETTER. rewrite Hv, Hbit. reflexivity.
    + intros v v' Hg Hg'.
      apply DEF_GETTER_Ok in Hg. apply DEF_GETTER_Ok in Hg'.
      rewrite Hg, Hg'. exact Hbit.
    + unfold SetFlag. apply flags_with_flags.
    + apply GetFlag_SetFlag_same.
    + rewrite DEF_GETTER_release, GetFlag_SetFlag_same. reflexivity.
    + rewrite !DEF_GETTER_release, Hbit. reflexivity.
  - intros b F d d' d'' H1 H2.
    apply DEF_SETTER_Ok in H1. apply DEF_SETTER_Ok in H2.
    subst d' d''. apply SetFlag_idempotent.
Qed.

End FlagFrame.

Lemma set_flag_changes_only_that_flag_witness :
  kSplitting <> kInlining
  /\ DEF_SETTER optimizing_only DebugBuild kSplitting function_job
     = Ok (SetFlag kSplitting function_job)
  /\ GetFlag kInlining (SetFlag kSplitting function_job)
     = GetFlag kInlining function_job
  /\ flags_ (SetFlag kSplitting function_job)
     = Z.lor (flags_ function_job) (DEF_ENUM kSplitting)
  /\ GetFlag kSplitting (SetFlag kSplitting function_job) = true.
Proof.
  assert (Hne : kSplitting <> kInlining) by discriminate.
  split; [exact Hne | split; [reflexivity | ]].
  destruct (proj1 (proj2 (set_flag_changes_only_that_flag optimizing_only optimizing_only))
              DebugBuild kSplitting kInlining function_job
              (SetFlag kSplitting function_job) Hne eq_refl)
    as (_ & Hother & _ & _ & Hword & Hset & _).
  split; [exact Hother | split; [exact Hword | exact Hset]].
Defined.

(** ** C3: flag accessors on a kind the flag is invalid for *)

Section FlagValidity.

Variables FlagGetIsValid FlagSetIsValid : Flag -> OptimizedCompilationInfo -> bool.

(** C3, as amended.  When flag F is declared invalid for code kind K,
    the getter and the setter of F on a descriptor of kind K are
    rejected in a debug build.  In a release build the check is
    compiled out: the getter returns the stored bit and the setter
    sets it. *)
Theorem invalid_flag_access_rejected_in_debug_build F K d :
  code_kind d = K ->
  (declared_invalid FlagGetIsValid F K ->
     DEF_GETTER FlagGetIsValid DebugBuild F d = Fatal
     /\ DEF_GETTER FlagGetIsValid ReleaseBuild F d = Ok (GetFlag F d))
  /\ (declared_invalid FlagSetIsValid F K ->
     DEF_SETTER FlagSetIsValid DebugBuild F d = Fatal
     /\ DEF_SETTER FlagSetIsValid ReleaseBuild F d = Ok (SetFlag F d)).
Proof.
  intro HK. split; intro Hinv; (split; [ | reflexivity]).
  - unfold DEF_GETTER, DCHECK. rewrite (Hinv d HK). reflexivity.
  - unfold DEF_SETTER, DCHECK. rewrite (Hinv d HK). reflexivity.
Qed.

End FlagValidity.

Lemma optimizing_only_invalid_for_stub : declared_invalid optimizing_only kInlining STUB.
Proof.
  intros d Hd. unfold optimizing_only, IsOptimizing. rewrite Hd. reflexivity.
Qed.

Lemma invalid_flag_access_rejected_in_debug_build_witness :
  code_kind stub_job = STUB
  /\ declared_invalid optimizing_only kInlining STUB
  /\ DEF_GETTER optimizing_only DebugBuild kInlining stub_job = Fatal
  /\ DEF_SETTER optimizing_only DebugBuild kInlining stub_job = Fatal.
Proof.
  assert (HK : code_kind stub_job = STUB) by reflexivity.
  split; [exact HK | split; [exact optimizing_only_invalid_for_stub | ]].
  destruct (invalid_flag_access_rejected_in_debug_build
              optimizing_only optimizing_only kInlining STUB stub_job HK)
    as [Hget Hset].
  split.
  - exact (proj1 (Hget optimizing_only_invalid_for_stub)).
  - exact (proj1 (Hset optimizing_only_invalid_for_stub)).
Defined.

(** C3 as stated fails in a release build: inlining is declared invalid
    for stubs, yet on a stub job the getter returns and the setter sets
    the bit. *)
Lemma invalid_flag_access_succeeds_in_release_build :
  declared_invalid optimizing_only kInlining STUB
  /\ code_kind stub_job = STUB
  /\ DEF_GETTER optimizing_only ReleaseBuild kInlining stub_job = Ok false
  /\ DEF_SETTER optimizing_only ReleaseBuild kInlining stub_job
     = Ok (with_flags 2 stub_job)
  /\ DEF_GETTER optimizing_only ReleaseBuild kInlining (with_flags 2 stub_job) = Ok true.
Proof.
  split; [exact optimizing_only_invalid_for_stub | ].
  repeat split.
Qed.

(** ** C7: marking a job as an OSR compile *)

(** C7.  On a descriptor in "optimize a function" mode the assertion of
    [SetOptimizingForOsr] does not fire, in either build, and the call
    stores the offset and the frame together.  In general the call
    either stores both or, rejected, stores neither. *)
Theorem SetOptimizingForOsr_sets_offset_and_frame b offset frame d :
  IsOptimizing d = true ->
  SetOptimizingForOsr b offset frame d
    = Ok (with_osr_frame frame (with_osr_offset offset d))
  /\ (forall b' d',
        SetOptimizingForOsr b' offset frame d = Ok d' ->
        osr_offset d' = offset /\ osr_frame d' = frame)
  /\ (forall b' d0,
        SetOptimizingForOsr b' offset frame d0 = Fatal
        \/ exists d', SetOptimizingForOsr b' offset frame d0 = Ok d'
                      /\ osr_offset d' = offset /\ osr_frame d' = frame).
Proof.
  intro Hopt.
  assert (Hboth : forall x, osr_offset (with_osr_frame frame (with_osr_offset offset x)) = offset
                            /\ osr_frame (with_osr_frame frame (with_osr_offset offset x)) = frame).
  { intro x. destruct x. split; reflexivity. }
  split; [ | split].
  - unfold SetOptimizingForOsr, DCHECK. rewrite Hopt. destruct b; reflexivity.
  - intros b' d'. unfold SetOptimizingForOsr, DCHECK. rewrite Hopt.
    destruct b'; simpl; intro H; injection H as H; subst d'; apply Hboth.
  - intros b' d0. unfold SetOptimizingForOsr, DCHECK.
    destruct b'; [destruct (IsOptimizing d0) | ]; simpl.
    + right. eexists. split; [reflexivity | apply Hboth].
    + left. reflexivity.
    + right. eexists. split; [reflexivity | apply Hboth].
Qed.

Lemma SetOptimizingForOsr_sets_offset_and_frame_witness :
  IsOptimizing function_job = true
  /\ SetOptimizingForOsr DebugBuild {| id_ := 42 |} (Some 9%nat) function_job
     = Ok (with_osr_frame (Some 9%nat) (with_osr_offset {| id_ := 42 |} function_job)).
Proof.
  split; [reflexivity | ].
  apply (SetOptimizingForOsr_sets_offset_and_frame
           DebugBuild {| id_ := 42 |} (Some 9%nat) function_job).
  reflexivity.
Defined.

Example SetOptimizingForOsr_on_stub_debug :
  SetOptimizingForOsr DebugBuild {| id_ := 42 |} (Some 9%nat) stub_job = Fatal.
Proof. reflexivity. Qed.

(** ** C8: [is_osr] *)

Lemma IsNone_iff b : BailoutIdOps.IsNone b = true <-> b = BailoutIdOps.None_.
Proof.
  unfold BailoutIdOps.IsNone, BailoutIdOps.None_. destruct b as [i]. simpl.
  rewrite Z.eqb_eq. split; intro H.
  - rewrite H. reflexivity.
  - injection H as H. exact H.
Qed.

Lemma ConfigureFlags_members config d :
  code_kind_ (ConfigureFlags config d) = code_kind_ d
  /\ osr_offset_ (ConfigureFlags config d) = osr_offset_ d
  /\ optimization_id_ (ConfigureFlags config d) = optimization_id_ d.
Proof.
  unfold ConfigureFlags. revert d.
  induction config as [ | f config IH]; intro d; simpl.
  - repeat split.
  - destruct (IH (SetFlag f d)) as (H1 & H2 & H3).
    rewrite H1, H2, H3. destruct d. repeat split.
Qed.

(** C8.  [is_osr()] answers true exactly when the OSR offset is not the
    "none" value, and a freshly constructed descriptor, of either mode,
    is not an OSR compile. *)
Theorem is_osr_iff_osr_offset_not_none :
  (forall d, is_osr d = true <-> osr_offset d <> BailoutIdOps.None_)
  /\ (forall d, is_osr d = false <-> osr_offset d = BailoutIdOps.None_)
  /\ (forall kind z id, is_osr (member_defaults kind z id) = false)
  /\ (forall name z kind config,
        is_osr (OptimizedCompilationInfo_stub name z kind config) = false)
  /\ (forall z id shared clos bytecode nci config,
        is_osr (OptimizedCompilationInfo_function z id shared clos bytecode nci config)
        = false).
Proof.
  split; [ | split; [ | split; [ | split]]].
  - intro d. unfold is_osr, osr_offset. rewrite negb_true_iff.
    rewrite <- IsNone_iff. destruct (BailoutIdOps.IsNone (osr_offset_ d)).
    + split; [discriminate | intro H; elim H; reflexivity].
    + split; [intros _; discriminate | reflexivity].
  - intro d. unfold is_osr, osr_offset. rewrite negb_false_iff. apply IsNone_iff.
  - reflexivity.
  - intros name z kind config. unfold is_osr, OptimizedCompilationInfo_stub.
    match goal with
    | |- context [ConfigureFlags config ?x] =>
        destruct (ConfigureFlags_members config x) as (_ & H & _)
    end.
    rewrite H. reflexivity.
  - intros z id shared clos bytecode nci config.
    unfold is_osr, OptimizedCompilationInfo_function.
    match goal with
    | |- context [ConfigureFlags config ?x] =>
        destruct (ConfigureFlags_members config x) as (_ & H & _)
    end.
    rewrite H. destruct nci; reflexivity.
Qed.

(** ** C9: the mode predicates *)


Lemma GetFlag_same_flags F d d' : flags_ d' = flags_ d -> GetFlag F d' = GetFlag F d.
Proof. unfold GetFlag. intro H. rewrite H. reflexivity. Qed.

Lemma AbortOptimization_members reason d :
  code_kind_ (AbortOptimization reason d) = code_kind_ d
  /\ optimization_id_ (AbortOptimization reason d) = optimization_id_ d
  /\ bailout_reason_ (AbortOptimization reason d) = reason.
Proof.
  unfold AbortOptimization.
  destruct (IsOptimizing (with_bailout_reason reason d)); destruct d; repeat split.
Qed.

Lemma AbortOptimization_flags_mono reason F d :
  GetFlag F d = true -> GetFlag F (AbortOptimization reason d) = true.
Proof.
  intro H. unfold AbortOptimization.
  assert (H1 : GetFlag F (with_bailout_reason reason d) = true).
  { rewrite (GetFlag_same_flags F d); [exact H | apply flags_with_bailout_reason]. }
  destruct (IsOptimizing (with_bailout_reason reason d)).
  - apply GetFlag_SetFlag_mono. exact H1.
  - exact H1.
Qed.

Section Operations.

Variable FlagSetIsValid : Flag -> OptimizedCompilationInfo -> bool.

Lemma preserved_refl d : preserved d d.
Proof. repeat split. intros F H. exact H. Qed.

Lemma preserved_trans d1 d2 d3 : preserved d1 d2 -> preserved d2 d3 -> preserved d1 d3.
Proof.
  intros (K1 & I1 & F1) (K2 & I2 & F2). repeat split.
  - rewrite K2. exact K1.
  - rewrite I2. exact I1.
  - intros F H. apply F2, F1, H.
Qed.

Lemma preserved_same_flags d d' :
  code_kind_ d' = code_kind_ d ->
  optimization_id_ d' = optimization_id_ d ->
  flags_ d' = flags_ d ->
  preserved d d'.
Proof.
  intros K I Fl. repeat split; [exact K | exact I | ].
  intros F H. rewrite (GetFlag_same_flags F d d' Fl). exact H.
Qed.

Ltac unchanged d := apply preserved_same_flags; destruct d; reflexivity.

Lemma step_preserved b op d d' :
  step FlagSetIsValid b op d = Ok d' -> preserved d d'.
Proof.
  destruct op; simpl; intro H.
  - apply DEF_SETTER_Ok in H. subst d'.
    destruct (SetFlag_members flag d) as (K & _).
    repeat split; [exact K | destruct d; reflexivity | ].
    intros F HF. apply GetFlag_SetFlag_mono. exact HF.
  - injection H as H; subst d'. unchanged d.
  - injection H as H; subst d'. unchanged d.
  - injection H as H; subst d'. unchanged d.
  - injection H as H; subst d'. unchanged d.
  - injection H as H; subst d'. unchanged d.
  - unfold SetOptimizingForOsr, DCHECK in H.
    destruct b; [destruct (IsOptimizing d) | ]; simpl in H;
      [ | discriminate H | ]; injection H as H; subst d'; unchanged d.
  - unfold set_persistent_handles, DCHECK in H.
    destruct b; [destruct (ph_ d) | ]; simpl in H;
      [discriminate H | | ]; injection H as H; subst d'; unchanged d.
  - injection H as H; subst d'. unchanged d.
  - injection H as H; subst d'.
    destruct (AbortOptimization_members reason d) as (K & I & _).
    repeat split; [exact K | exact I | ].
    intros F HF. apply AbortOptimization_flags_mono. exact HF.
  - injection H as H; subst d'. unchanged d.
  - injection H as H; subst d'. unchanged d.
  - injection H as H; subst d'. unchanged d.
  - injection H as H; subst d'. unchanged d.
  - injection H as H; subst d'. unchanged d.
  - injection H as H; subst d'. unchanged d.
  - injection H as H; subst d'. unchanged d.
  - injection H as H; subst d'. unchanged d.
Qed.

Lemma run_preserved b ops : forall d d',
  run FlagSetIsValid b ops d = Ok d' -> preserved d d'.
Proof.
  induction ops as [ | op ops IH]; simpl; intros d d' H.
  - injection H as H. subst d'. apply preserved_refl.
  - destruct (step FlagSetIsValid b op d) as [d1 | ] eqn:Hstep; simpl in H.
    + apply (preserved_trans d d1 d').
      * apply (step_preserved b op). exact Hstep.
      * apply IH. exact H.
    + discriminate H.
Qed.

(** In a release build no assertion exists, so every sequence of
    operations runs to its end. *)
Lemma run_release_returns ops : forall d,
  exists d', run FlagSetIsValid ReleaseBuild ops d = Ok d'.
Proof.
  induction ops as [ | op ops IH]; simpl; intro d.
  - exists d. reflexivity.
  - destruct op; simpl; apply IH.
Qed.


End Operations.


(** ** C1 and C5: the bailout state machine *)

Lemma with_bailout_reason_SetFlag r F d :
  with_bailout_reason r (SetFlag F d) = SetFlag F (with_bailout_reason r d).
Proof. unfold SetFlag. destruct d. reflexivity. Qed.

Lemma IsOptimizing_with_bailout_reason r d :
  IsOptimizing (with_bailout_reason r d) = IsOptimizing d.
Proof. unfold IsOptimizing, code_kind. rewrite code_kind_with_bailout_reason. reflexivity. Qed.

Lemma IsOptimizing_SetFlag F d : IsOptimizing (SetFlag F d) = IsOptimizing d.
Proof.
  unfold IsOptimizing, code_kind. destruct (SetFlag_members F d) as (K & _).
  rewrite K. reflexivity.
Qed.

Lemma AbortOptimization_idempotent r d :
  AbortOptimization r (AbortOptimization r d) = AbortOptimization r d.
Proof.
  unfold AbortOptimization. cbv zeta.
  rewrite (IsOptimizing_with_bailout_reason r d).
  destruct (IsOptimizing d) eqn:Hopt.
  - rewrite with_bailout_reason_SetFlag, with_bailout_reason_twice.
    rewrite IsOptimizing_SetFlag, IsOptimizing_with_bailout_reason, Hopt.
    apply SetFlag_idempotent.
  - rewrite with_bailout_reason_twice, IsOptimizing_with_bailout_reason, Hopt.
    reflexivity.
Qed.

Lemma GetFlag_RetryOptimization F r d :
  GetFlag F (RetryOptimization r d) = GetFlag F d.
Proof. apply GetFlag_same_flags. apply flags_with_bailout_reason. Qed.

Section Bailout.

Variables FlagGetIsValid FlagSetIsValid : Flag -> OptimizedCompilationInfo -> bool.

(** C1.  After [AbortOptimization(r)] the recorded reason is r and,
    on an optimizing-function job, the disable-future-optimization
    flag is set (its getter, where it returns, returns true).  After
    [RetryOptimization(r)] the recorded reason is r and the flag is
    what it was. *)
Theorem abort_and_retry_record_the_reason d r :
  bailout_reason (AbortOptimization r d) = r
  /\ (IsOptimizing d = true ->
        GetFlag kDisableFutureOptimization (AbortOptimization r d) = true
        /\ disable_future_optimization FlagGetIsValid ReleaseBuild
             (AbortOptimization r d) = Ok true
        /\ forall b v,
             disable_future_optimization FlagGetIsValid b (AbortOptimization r d) = Ok v ->
             v = true)
  /\ bailout_reason (RetryOptimization r d) = r
  /\ GetFlag kDisableFutureOptimization (RetryOptimization r d)
     = GetFlag kDisableFutureOptimization d
  /\ disable_future_optimization FlagGetIsValid ReleaseBuild (RetryOptimization r d)
     = disable_future_optimization FlagGetIsValid ReleaseBuild d.
Proof.
  split; [ | split; [ | split; [ | split]]].
  - unfold bailout_reason. apply AbortOptimization_members.
  - intro Hopt.
    assert (Hset : GetFlag kDisableFutureOptimization (AbortOptimization r d) = true).
    { unfold AbortOptimization. cbv zeta.
      rewrite IsOptimizing_with_bailout_reason, Hopt.
      apply GetFlag_SetFlag_same. }
    split; [exact Hset | split].
    + unfold disable_future_optimization. rewrite DEF_GETTER_release, Hset. reflexivity.
    + intros b v Hv. apply DEF_GETTER_Ok in Hv. rewrite Hv. exact Hset.
  - unfold bailout_reason, RetryOptimization. apply bailout_reason_with_bailout_reason.
  - apply GetFlag_RetryOptimization.
  - unfold disable_future_optimization. rewrite !DEF_GETTER_release.
    rewrite GetFlag_RetryOptimization. reflexivity.
Qed.

(** C5.  Once the disable-future-optimization flag is set, no
    sequence of operations clears it; aborting a second time with the
    same reason changes nothing; and a retry afterwards leaves the
    flag as it is. *)
Theorem disable_future_optimization_is_monotonic :
  (forall b ops d d',
      GetFlag kDisableFutureOptimization d = true ->
      run FlagSetIsValid b ops d = Ok d' ->
      GetFlag kDisableFutureOptimization d' = true)
  /\ (forall r d, AbortOptimization r (AbortOptimization r d) = AbortOptimization r d)
  /\ (forall r r' d,
        GetFlag kDisableFutureOptimization
          (RetryOptimization r' (AbortOptimization r (AbortOptimization r d)))
        = GetFlag kDisableFutureOptimization (AbortOptimization r d))
  /\ (forall r r' d,
        IsOptimizing d = true ->
        GetFlag kDisableFutureOptimization
          (RetryOptimization r' (AbortOptimization r (AbortOptimization r d))) = true).
Proof.
  split; [ | split; [ | split]].
  - intros b ops d d' Hset Hrun.
    apply run_preserved in Hrun. destruct Hrun as (_ & _ & Hmono).
    apply Hmono. exact Hset.
  - apply AbortOptimization_idempotent.
  - intros r r' d. rewrite AbortOptimization_idempotent.
    apply GetFlag_RetryOptimization.
  - intros r r' d Hopt. rewrite AbortOptimization_idempotent.
    rewrite GetFlag_RetryOptimization.
    unfold AbortOptimization. cbv zeta.
    rewrite IsOptimizing_with_bailout_reason, Hopt.
    apply GetFlag_SetFlag_same.
Qed.

End Bailout.

Lemma abort_and_retry_record_the_reason_witness :
  IsOptimizing function_job = true
  /\ GetFlag kDisableFutureOptimization (AbortOptimization kUnknown function_job) = true.
Proof.
  split; [reflexivity | ].
  apply (proj1 (proj2 (abort_and_retry_record_the_reason
                         optimizing_only function_job kUnknown))).
  reflexivity.
Defined.

Lemma disable_future_optimization_is_monotonic_witness :
  GetFlag kDisableFutureOptimization (AbortOptimization kUnknown function_job) = true
  /\ run optimizing_only DebugBuild
       [op_RetryOptimization (kReason 3); op_set_flag kSplitting;
        op_AddInlinedFunction None None 5]
       (AbortOptimization kUnknown function_job)
     = Ok (snd (AddInlinedFunction None None 5
                 (SetFlag kSplitting
                   (RetryOptimization (kReason 3)
                     (AbortOptimization kUnknown function_job)))))
  /\ GetFlag kDisableFutureOptimization
       (snd (AddInlinedFunction None None 5
              (SetFlag kSplitting
                (RetryOptimization (kReason 3)
                  (AbortOptimization kUnknown function_job))))) = true.
Proof.
  split; [reflexivity | split; [reflexivity | ]].
  apply (proj1 (disable_future_optimization_is_monotonic optimizing_only)
           DebugBuild
           [op_RetryOptimization (kReason 3); op_set_flag kSplitting;
            op_AddInlinedFunction None None 5]
           (AbortOptimization kUnknown function_job)).
  - reflexivity.
  - reflexivity.
Defined.

(** ** C2: attaching and detaching the reference bundle *)

Lemma with_ph_twice p q d : with_ph p (with_ph q d) = with_ph p d.
Proof. by_members d. Qed.

Lemma ph_with_ph p d : ph_ (with_ph p d) = p.
Proof. by_members d. Qed.

Lemma set_persistent_handles_Ok b bundle d d1 :
  set_persistent_handles b bundle d = Ok d1 -> d1 = with_ph bundle d.
Proof.
  unfold set_persistent_handles, DCHECK.
  destruct b; [destruct (ph_ d) | ]; simpl; intro H;
    [discriminate H | | ]; injection H as H; symmetry; exact H.
Qed.

(** C2, as amended.  A bundle that was attached comes back from
    [DetachPersistentHandles] as the same pointer, and the descriptor
    holds no bundle afterwards.  A second detach is not rejected: it
    returns the null bundle and leaves the descriptor as it is.
    Attaching is accepted whenever no bundle is installed, so a detach
    followed by an attach is legal. *)
Theorem attach_then_detach_returns_the_bundle b bundle d d1 :
  set_persistent_handles b bundle d = Ok d1 ->
  DetachPersistentHandles d1 = (bundle, with_ph None d)
  /\ DetachPersistentHandles (snd (DetachPersistentHandles d1))
     = (None, snd (DetachPersistentHandles d1))
  /\ (forall b' bundle',
        set_persistent_handles b' bundle' (snd (DetachPersistentHandles d1))
        = Ok (with_ph bundle' d))
  /\ (forall b', ph_ d = None ->
        set_persistent_handles b' bundle d = Ok (with_ph bundle d)).
Proof.
  intro H. apply set_persistent_handles_Ok in H. subst d1.
  unfold DetachPersistentHandles. cbn [fst snd].
  rewrite !ph_with_ph, !with_ph_twice.
  split; [reflexivity | split; [reflexivity | split]].
  - intros b' bundle'. unfold set_persistent_handles, DCHECK.
    rewrite ph_with_ph, with_ph_twice. destruct b'; reflexivity.
  - intros b' Hnone. unfold set_persistent_handles, DCHECK.
    rewrite Hnone. destruct b'; reflexivity.
Qed.

Lemma attach_then_detach_returns_the_bundle_witness :
  set_persistent_handles DebugBuild (Some 7%nat) function_job
    = Ok (with_ph (Some 7%nat) function_job)
  /\ DetachPersistentHandles (with_ph (Some 7%nat) function_job)
     = (Some 7%nat, with_ph None function_job).
Proof.
  split; [reflexivity | ].
  apply (attach_then_detach_returns_the_bundle
           DebugBuild (Some 7%nat) function_job (with_ph (Some 7%nat) function_job)).
  reflexivity.
Defined.

(** C2 as stated fails on its last part: after attach and detach, a
    second detach returns normally, in a debug build as well, handing
    out the null bundle. *)
Lemma second_detach_is_not_rejected :
  set_persistent_handles DebugBuild (Some 7%nat) stub_job
    = Ok (with_ph (Some 7%nat) stub_job)
  /\ DetachPersistentHandles (with_ph (Some 7%nat) stub_job) = (Some 7%nat, stub_job)
  /\ DetachPersistentHandles stub_job = (None, stub_job)
  /\ run optimizing_only DebugBuild
       [op_set_persistent_handles (Some 7%nat); op_DetachPersistentHandles;
        op_DetachPersistentHandles] stub_job
     = Ok stub_job
  /\ run optimizing_only DebugBuild
       [op_set_persistent_handles (Some 7%nat); op_DetachPersistentHandles;
        op_DetachPersistentHandles] stub_job
     <> Fatal.
Proof.
  repeat split. discriminate.
Qed.

(** ** C6: the inlining ledger *)

Lemma static_cast_int_small z : 0 <= z < 2 ^ 31 -> static_cast_int z = z.
Proof.
  intro H. unfold static_cast_int.
  rewrite Z.mod_small by (change (2 ^ 32) with (2 ^ 31 + 2 ^ 31); lia).
  lia.
Qed.

Lemma with_inlined_functions_twice l m d :
  with_inlined_functions l (with_inlined_functions m d) = with_inlined_functions l d.
Proof. by_members d. Qed.

Lemma inlined_functions_with_inlined_functions l d :
  inlined_functions_ (with_inlined_functions l d) = l.
Proof. by_members d. Qed.

(** One call, on a ledger whose size fits an [int]. *)
Lemma AddInlinedFunction_appends f bc pos d :
  Z.of_nat (List.length (inlined_functions_ d)) < 2 ^ 31 ->
  AddInlinedFunction f bc pos d
  = (Z.of_nat (List.length (inlined_functions_ d)),
     with_inlined_functions
       (inlined_functions_ d
          ++ [registered_holder (Z.of_nat (List.length (inlined_functions_ d))) (f, bc, pos)])
       d).
Proof.
  intro H. unfold AddInlinedFunction, InlinedFunctionHolder.RegisterInlinedFunctionId.
  simpl. rewrite static_cast_int_small by lia. reflexivity.
Qed.

Lemma AddInlinedFunctions_appends calls : forall d,
  Z.of_nat (List.length (inlined_functions_ d) + List.length calls) <= 2 ^ 31 ->
  AddInlinedFunctions calls d
  = (map Z.of_nat (seq (List.length (inlined_functions_ d)) (List.length calls)),
     with_inlined_functions
       (inlined_functions_ d
          ++ registered_holders (List.length (inlined_functions_ d)) calls)
       d).
Proof.
  induction calls as [ | [[f bc] pos] calls IH]; intros d Hfit.
  - simpl. unfold registered_holders. simpl. rewrite app_nil_r.
    destruct d. reflexivity.
  - cbn [AddInlinedFunctions].
    rewrite AddInlinedFunction_appends
      by (cbn [List.length] in Hfit; lia).
    set (n := List.length (inlined_functions_ d)) in *.
    set (h := registered_holder (Z.of_nat n) (f, bc, pos)).
    set (d1 := with_inlined_functions (inlined_functions_ d ++ [h]) d).
    assert (Hl : inlined_functions_ d1 = inlined_functions_ d ++ [h])
      by apply inlined_functions_with_inlined_functions.
    assert (Hn : List.length (inlined_functions_ d1) = S n).
    { rewrite Hl, length_app. simpl. fold n. lia. }
    rewrite IH by (rewrite Hn; cbn [List.length] in Hfit; lia).
    rewrite Hn, Hl. unfold d1. rewrite with_inlined_functions_twice.
    rewrite <- app_assoc. reflexivity.
Qed.

Lemma holder_id_registered_holders size calls :
  map holder_id (registered_holders size calls)
  = map Z.of_nat (seq size (List.length calls)).
Proof.
  unfold registered_holders. revert size.
  induction calls as [ | [[f bc] pos] calls IH]; intro size; simpl.
  - reflexivity.
  - rewrite IH. reflexivity.
Qed.

(** C6.  Successive calls of [AddInlinedFunction] on a ledger of n
    entries return n, n + 1, n + 2, ...; each appends one entry, which
    carries the call's references and position and the returned id; the
    earlier entries stay in place, and nothing else in the descriptor
    changes.  On a fresh ledger the ids are 0, 1, 2, ...  Ids are C++
    [int]s: this is C6 as amended, for ledgers that stay within 2^31
    entries. *)
Theorem AddInlinedFunction_returns_sequential_ids calls d :
  Z.of_nat (List.length (inlined_functions d) + List.length calls) <= 2 ^ 31 ->
  let ids := fst (AddInlinedFunctions calls d) in
  let d' := snd (AddInlinedFunctions calls d) in
  ids = map Z.of_nat (seq (List.length (inlined_functions d)) (List.length calls))
  /\ inlined_functions d'
     = inlined_functions d ++ registered_holders (List.length (inlined_functions d)) calls
  /\ List.length (inlined_functions d')
     = (List.length (inlined_functions d) + List.length calls)%nat
  /\ map holder_id (inlined_functions d') = map holder_id (inlined_functions d) ++ ids
  /\ d' = with_inlined_functions (inlined_functions d') d
  /\ (inlined_functions d = [] ->
      ids = map Z.of_nat (seq 0 (List.length calls))
      /\ map holder_id (inlined_functions d') = ids).
Proof.
  intro Hfit. unfold inlined_functions in *.
  rewrite (AddInlinedFunctions_appends calls d Hfit). cbn [fst snd].
  rewrite inlined_functions_with_inlined_functions.
  split; [reflexivity | split; [reflexivity | split; [ | split; [ | split]]]].
  - rewrite length_app. unfold registered_holders.
    rewrite length_map, length_combine, length_seq. lia.
  - rewrite map_app, holder_id_registered_holders. reflexivity.
  - reflexivity.
  - intro Hnil. rewrite Hnil. simpl. split; [reflexivity | ].
    apply holder_id_registered_holders.
Qed.

Lemma AddInlinedFunction_returns_sequential_ids_witness :
  Z.of_nat (List.length (inlined_functions function_job) + List.length three_calls)
    <= 2 ^ 31
  /\ fst (AddInlinedFunctions three_calls function_job) = [0; 1; 2].
Proof.
  assert (Hfit : Z.of_nat (List.length (inlined_functions function_job)
                           + List.length three_calls) <= 2 ^ 31)
    by (vm_compute; discriminate).
  split; [exact Hfit | ].
  exact (proj1 (AddInlinedFunction_returns_sequential_ids three_calls function_job Hfit)).
Defined.

Example AddInlinedFunction_ledger_ids :
  map holder_id (inlined_functions (snd (AddInlinedFunctions three_calls stub_job)))
  = [0; 1; 2].
Proof. reflexivity. Qed.

Lemma AddInlinedFunction_returned_id f bc pos d :
  fst (AddInlinedFunction f bc pos d)
  = static_cast_int (Z.of_nat (List.length (inlined_functions_ d))).
Proof. reflexivity. Qed.

Lemma int_range_calls_fit :
  Z.of_nat (List.length (inlined_functions stub_job) + List.length int_range_calls)
  <= 2 ^ 31.
Proof.
  change (inlined_functions stub_job) with (@nil InlinedFunctionHolder.t).
  unfold int_range_calls. rewrite repeat_length.
  change (List.length (@nil InlinedFunctionHolder.t)) with 0%nat.
  rewrite Nat.add_0_l, Z2Nat.id by lia. lia.
Qed.

(** C6 as stated fails at the end of the [int] range: after 2^31 calls
    on a stub job the ledger has 2^31 entries, and the next call, number
    2^31 counting from 0, returns -2^31. *)
Lemma inlining_id_wraps_at_int_range :
  Z.of_nat (List.length
              (inlined_functions (snd (AddInlinedFunctions int_range_calls stub_job))))
    = 2 ^ 31
  /\ fst (AddInlinedFunction None None 0
            (snd (AddInlinedFunctions int_range_calls stub_job)))
     = - 2 ^ 31.
Proof.
  assert (Hlen : Z.of_nat (List.length
                   (inlined_functions_ (snd (AddInlinedFunctions int_range_calls stub_job))))
                 = 2 ^ 31).
  { rewrite (AddInlinedFunctions_appends int_range_calls stub_job int_range_calls_fit).
    cbn [snd]. rewrite inlined_functions_with_inlined_functions.
    change (inlined_functions_ stub_job) with (@nil InlinedFunctionHolder.t).
    rewrite app_nil_l. unfold registered_holders.
    rewrite length_map, length_combine, length_seq, Nat.min_id.
    unfold int_range_calls. rewrite repeat_length. apply Z2Nat.id. lia. }
  split; [exact Hlen | ].
  rewrite AddInlinedFunction_returned_id, Hlen. reflexivity.
Qed.

(** ** The job id

    The accessor [optimization_id()] asserts [IsOptimizing()]: in a
    debug build it is rejected on every other descriptor, whose stored
    id is the sentinel when it comes from the stub constructor. *)

Lemma optimization_id_returns b d :
  optimization_id b d = Fatal <-> b = DebugBuild /\ IsOptimizing d = false.
Proof.
  unfold optimization_id, DCHECK.
  destruct b; [destruct (IsOptimizing d) | ]; simpl; split;
    try discriminate; try tauto; intros [H1 H2]; discriminate.
Qed.

Lemma stub_constructor_optimization_id debug_name zone kind config :
  optimization_id_ (OptimizedCompilationInfo_stub debug_name zone kind config)
    = kNoOptimizationId
  /\ optimization_id ReleaseBuild
       (OptimizedCompilationInfo_stub debug_name zone kind config) = Ok (-1)
  /\ (kind <> OPTIMIZED_FUNCTION ->
      optimization_id DebugBuild
        (OptimizedCompilationInfo_stub debug_name zone kind config) = Fatal).
Proof.
  unfold OptimizedCompilationInfo_stub.
  match goal with
  | |- context [ConfigureFlags config ?x] =>
      destruct (ConfigureFlags_members config x) as (HK & _ & HI)
  end.
  split; [rewrite HI; reflexivity | split].
  - unfold optimization_id, DCHECK, bind. rewrite HI. reflexivity.
  - intro Hk. apply optimization_id_returns. split; [reflexivity | ].
    unfold IsOptimizing, code_kind. rewrite HK. simpl.
    destruct kind; [elim Hk | | | ]; reflexivity.
Qed.

(** * Further properties of the inline member functions *)

(** ** What an inline operation writes *)

Lemma same_refl m d : same m d d.
Proof. destruct m; reflexivity. Qed.

Lemma same_trans m d1 d2 d3 : same m d1 d2 -> same m d2 d3 -> same m d1 d3.
Proof. destruct m; simpl; intros H1 H2; rewrite H2; exact H1. Qed.

Ltac not_written Hm := exfalso; apply Hm; simpl; tauto.

Lemma step_inline_footprint valid b op d d' :
  defined_inline op = true ->
  step valid b op d = Ok d' ->
  forall m, ~ In m (writes op) -> same m d d'.
Proof.
  intros Hinl H m Hm.
  destruct op; try discriminate Hinl; simpl in H.
  - apply DEF_SETTER_Ok in H. subst d'. unfold SetFlag.
    destruct m; try (destruct d; reflexivity); not_written Hm.
  - injection H as H; subst d'.
    destruct m; try (destruct d; reflexivity); not_written Hm.
  - injection H as H; subst d'.
    destruct m; try (destruct d; reflexivity); not_written Hm.
  - injection H as H; subst d'.
    destruct m; try (destruct d; reflexivity); not_written Hm.
  - unfold SetOptimizingForOsr, DCHECK in H.
    destruct b; [destruct (IsOptimizing d) | ]; simpl in H;
      [ | discriminate H | ]; injection H as H; subst d';
      (destruct m; try (destruct d; reflexivity); not_written Hm).
  - injection H as H; subst d'.
    destruct m; try (destruct d; reflexivity); not_written Hm.
  - injection H as H; subst d'.
    destruct m; try (destruct d; reflexivity); not_written Hm.
  - injection H as H; subst d'.
    destruct m; try (destruct d; reflexivity); not_written Hm.
  - injection H as H; subst d'.
    destruct m; try (destruct d; reflexivity); not_written Hm.
  - injection H as H; subst d'.
    destruct m; try (destruct d; reflexivity); not_written Hm.
  - injection H as H; subst d'.
    destruct m; try (destruct d; reflexivity); not_written Hm.
Qed.

Lemma writes_no_constant op m :
  In m [m_code_kind; m_zone; m_optimization_id; m_bailout_reason; m_shared_info;
        m_closure; m_bytecode_array; m_debug_name; m_wasm_compilation_result;
        m_persistent_handles] ->
  ~ In m (writes op).
Proof.
  intros Hin Hw. simpl in Hin.
  destruct op; simpl in Hw;
    repeat (destruct Hw as [Hw | Hw]; [subst m; intuition discriminate | ]);
    exact Hw.
Qed.

Section InlineOperations.

Variables FlagGetIsValid FlagSetIsValid : Flag -> OptimizedCompilationInfo -> bool.

(** X1.  A run of inline operations leaves alone every member that none of
    its operations assigns to: each setter writes its own member,
    [SetOptimizingForOsr] the OSR pair, the flag setters [flags_],
    [DetachPersistentHandles] the bundle.  No inline operation writes
    the code kind, the zone, the job id, the bailout reason, the
    function's shared info, closure and bytecode, the debug name, the
    wasm result or [persistent_handles_]. *)
Theorem inline_operations_write_their_member_only b ops d d' :
  forallb defined_inline ops = true ->
  run FlagSetIsValid b ops d = Ok d' ->
  (forall m, (forall op, In op ops -> ~ In m (writes op)) -> same m d d')
  /\ code_kind d' = code_kind d
  /\ zone d' = zone d
  /\ optimization_id_ d' = optimization_id_ d
  /\ bailout_reason d' = bailout_reason d
  /\ shared_info d' = shared_info d
  /\ closure d' = closure d
  /\ bytecode_array d' = bytecode_array d
  /\ debug_name_ d' = debug_name_ d
  /\ wasm_compilation_result_ d' = wasm_compilation_result_ d
  /\ persistent_handles_ d' = persistent_handles_ d.
Proof.
  intros Hinl Hrun.
  assert (Hfoot : forall m, (forall op, In op ops -> ~ In m (writes op)) -> same m d d').
  { revert d Hinl Hrun. induction ops as [ | op ops IH]; simpl; intros d Hinl Hrun m Hm.
    - injection Hrun as Hrun. subst d'. apply same_refl.
    - apply andb_true_iff in Hinl. destruct Hinl as [Hop Hops].
      destruct (step FlagSetIsValid b op d) as [d1 | ] eqn:Hstep; simpl in Hrun;
        [ | discriminate Hrun].
      apply (same_trans m d d1 d').
      + apply (step_inline_footprint FlagSetIsValid b op d d1 Hop Hstep).
        apply Hm. left. reflexivity.
      + apply (IH d1 Hops Hrun). intros op' Hin. apply Hm. right. exact Hin. }
  split; [exact Hfoot | ].
  repeat split;
    match goal with
    | |- code_kind _ = _ => apply (Hfoot m_code_kind)
    | |- zone _ = _ => apply (Hfoot m_zone)
    | |- optimization_id_ _ = _ => apply (Hfoot m_optimization_id)
    | |- bailout_reason _ = _ => apply (Hfoot m_bailout_reason)
    | |- shared_info _ = _ => apply (Hfoot m_shared_info)
    | |- closure _ = _ => apply (Hfoot m_closure)
    | |- bytecode_array _ = _ => apply (Hfoot m_bytecode_array)
    | |- debug_name_ _ = _ => apply (Hfoot m_debug_name)
    | |- wasm_compilation_result_ _ = _ => apply (Hfoot m_wasm_compilation_result)
    | |- persistent_handles_ _ = _ => apply (Hfoot m_persistent_handles)
    end;
    intros op _; apply writes_no_constant; simpl; tauto.
Qed.

(** ** Debug and release builds *)

Lemma step_inline_release op d :
  defined_inline op = true ->
  exists d', step FlagSetIsValid ReleaseBuild op d = Ok d'.
Proof.
  intro Hinl. destruct op; try discriminate Hinl; simpl; eexists; reflexivity.
Qed.

Lemma step_inline_debug_or_release op d :
  defined_inline op = true ->
  step FlagSetIsValid DebugBuild op d = Fatal
  \/ step FlagSetIsValid DebugBuild op d = step FlagSetIsValid ReleaseBuild op d.
Proof.
  intro Hinl. destruct op; try discriminate Hinl; simpl; try (right; reflexivity).
  - unfold DEF_SETTER, DCHECK. destruct (FlagSetIsValid flag d); simpl; tauto.
  - unfold SetOptimizingForOsr, DCHECK. destruct (IsOptimizing d); simpl; tauto.
Qed.

(** X2.  The assertions only reject: whenever a run of inline operations
    returns in a debug build, the release build returns the same
    descriptor; the release build always returns.  The same holds for
    the flag getters and for [optimization_id()]. *)
Theorem debug_build_rejects_or_agrees_with_release_build :
  (forall ops d,
      forallb defined_inline ops = true ->
      (run FlagSetIsValid DebugBuild ops d = Fatal
       \/ run FlagSetIsValid DebugBuild ops d = run FlagSetIsValid ReleaseBuild ops d)
      /\ exists d', run FlagSetIsValid ReleaseBuild ops d = Ok d')
  /\ (forall flag d,
        DEF_GETTER FlagGetIsValid DebugBuild flag d = Fatal
        \/ DEF_GETTER FlagGetIsValid DebugBuild flag d
           = DEF_GETTER FlagGetIsValid ReleaseBuild flag d)
  /\ (forall d,
        optimization_id DebugBuild d = Fatal
        \/ optimization_id DebugBuild d = optimization_id ReleaseBuild d).
Proof.
  split; [ | split].
  - induction ops as [ | op ops IH]; simpl; intros d Hinl.
    + split; [right; reflexivity | exists d; reflexivity].
    + apply andb_true_iff in Hinl. destruct Hinl as [Hop Hops].
      destruct (step_inline_release op d Hop) as [d1 Hrel].
      destruct (step_inline_debug_or_release op d Hop) as [Hdbg | Hdbg].
      * rewrite Hdbg, Hrel. simpl. split; [left; reflexivity | ].
        apply (IH d1 Hops).
      * rewrite Hdbg, Hrel. simpl. apply (IH d1 Hops).
  - intros flag d. unfold DEF_GETTER, DCHECK.
    destruct (FlagGetIsValid flag d); simpl; tauto.
  - intro d. unfold optimization_id, DCHECK.
    destruct (IsOptimizing d); simpl; tauto.
Qed.

(** ** The OSR record *)

Lemma step_inline_osr_consistent op d d' :
  defined_inline op = true ->
  osr_consistent d = true ->
  step FlagSetIsValid DebugBuild op d = Ok d' ->
  osr_consistent d' = true.
Proof.
  intros Hinl Hc H.
  destruct op; try discriminate Hinl; simpl in H.
  - apply DEF_SETTER_Ok in H. subst d'. unfold SetFlag. destruct d. exact Hc.
  - injection H as H; subst d'. destruct d. exact Hc.
  - injection H as H; subst d'. destruct d. exact Hc.
  - injection H as H; subst d'. destruct d. exact Hc.
  - unfold SetOptimizingForOsr, DCHECK in H.
    destruct (IsOptimizing d) eqn:Hopt; simpl in H; [ | discriminate H].
    injection H as H; subst d'.
    unfold osr_consistent.
    replace (IsOptimizing (with_osr_frame osr_frame0 (with_osr_offset osr_offset0 d)))
      with true by (rewrite <- Hopt; destruct d; reflexivity).
    destruct (is_osr _); reflexivity.
  - injection H as H; subst d'. destruct d. exact Hc.
  - injection H as H; subst d'. destruct d. exact Hc.
  - injection H as H; subst d'. destruct d. exact Hc.
  - injection H as H; subst d'. destruct d. exact Hc.
  - injection H as H; subst d'. destruct d. exact Hc.
  - injection H as H; subst d'. destruct d. exact Hc.
Qed.

(** X3.  In a debug build the inline operations keep the link between the
    OSR record and the mode: if every OSR compile is an optimizing job
    before a run, it is so after it.  The default member initializers
    start a descriptor off that way. *)
Theorem osr_compile_is_optimizing_job_in_debug_build ops : forall d d',
  forallb defined_inline ops = true ->
  osr_consistent d = true ->
  run FlagSetIsValid DebugBuild ops d = Ok d' ->
  (is_osr d' = true -> IsOptimizing d' = true)
  /\ forall kind z id, osr_consistent (member_defaults kind z id) = true.
Proof.
  intros d d' Hinl Hc Hrun. split; [ | reflexivity].
  assert (Hc' : osr_consistent d' = true).
  { revert d Hinl Hc Hrun. induction ops as [ | op ops IH]; simpl; intros d Hinl Hc Hrun.
    - injection Hrun as Hrun. subst d'. exact Hc.
    - apply andb_true_iff in Hinl. destruct Hinl as [Hop Hops].
      destruct (step FlagSetIsValid DebugBuild op d) as [d1 | ] eqn:Hstep;
        simpl in Hrun; [ | discriminate Hrun].
      apply (IH d1 Hops); [ | exact Hrun].
      apply (step_inline_osr_consistent op d d1 Hop Hc Hstep). }
  unfold osr_consistent in Hc'. intro Hosr. rewrite Hosr in Hc'. exact Hc'.
Qed.

End InlineOperations.

(** X4.  Outside an optimizing job the assertion of [SetOptimizingForOsr]
    is all that guards the OSR record: the debug build rejects the
    call, the release build stores the entry point and leaves a
    descriptor that is an OSR compile without being an optimizing
    job. *)
Theorem release_build_marks_any_job_for_osr offset frame d :
  IsOptimizing d = false ->
  BailoutIdOps.IsNone offset = false ->
  SetOptimizingForOsr DebugBuild offset frame d = Fatal
  /\ SetOptimizingForOsr ReleaseBuild offset frame d
     = Ok (with_osr_frame frame (with_osr_offset offset d))
  /\ is_osr (with_osr_frame frame (with_osr_offset offset d)) = true
  /\ IsOptimizing (with_osr_frame frame (with_osr_offset offset d)) = false
  /\ osr_consistent (with_osr_frame frame (with_osr_offset offset d)) = false.
Proof.
  intros Hopt Hnone.
  assert (Hosr : is_osr (with_osr_frame frame (with_osr_offset offset d)) = true).
  { unfold is_osr. replace (osr_offset_ (with_osr_frame frame (with_osr_offset offset d)))
      with offset by (destruct d; reflexivity).
    rewrite Hnone. reflexivity. }
  assert (Hopt' : IsOptimizing (with_osr_frame frame (with_osr_offset offset d)) = false).
  { rewrite <- Hopt. destruct d. reflexivity. }
  split; [ | split; [reflexivity | split; [exact Hosr | split; [exact Hopt' | ]]]].
  - unfold SetOptimizingForOsr, DCHECK. rewrite Hopt. reflexivity.
  - unfold osr_consistent. rewrite Hosr, Hopt'. reflexivity.
Qed.

(** X5.  Whether a descriptor is an OSR compile after [SetOptimizingForOsr]
    depends on the offset alone: with the "none" offset the frame is
    stored and the descriptor is still not an OSR compile.  A second
    call overwrites the first. *)
Theorem SetOptimizingForOsr_then_is_osr b offset frame d d' :
  SetOptimizingForOsr b offset frame d = Ok d' ->
  is_osr d' = negb (BailoutIdOps.IsNone offset)
  /\ (offset = BailoutIdOps.None_ -> is_osr d' = false /\ osr_frame d' = frame)
  /\ (forall b2 offset2 frame2,
        SetOptimizingForOsr b2 offset2 frame2 d'
        = SetOptimizingForOsr b2 offset2 frame2 d).
Proof.
  intro H.
  assert (Hd : d' = with_osr_frame frame (with_osr_offset offset d)).
  { unfold SetOptimizingForOsr, DCHECK in H.
    destruct b; [destruct (IsOptimizing d) | ]; simpl in H;
      [ | discriminate H | ]; injection H as H; symmetry; exact H. }
  subst d'.
  assert (Hosr : is_osr (with_osr_frame frame (with_osr_offset offset d))
                 = negb (BailoutIdOps.IsNone offset))
    by (destruct d; reflexivity).
  split; [exact Hosr | split].
  - intro Hnone. rewrite Hosr, Hnone. split; [reflexivity | destruct d; reflexivity].
  - intros b2 offset2 frame2. unfold SetOptimizingForOsr.
    replace (IsOptimizing (with_osr_frame frame (with_osr_offset offset d)))
      with (IsOptimizing d) by (destruct d; reflexivity).
    replace (with_osr_frame frame2
               (with_osr_offset offset2 (with_osr_frame frame (with_osr_offset offset d))))
      with (with_osr_frame frame2 (with_osr_offset offset2 d))
      by (destruct d; reflexivity).
    reflexivity.
Qed.

(** ** The job id accessor *)

Section JobId.

Variable FlagSetIsValid : Flag -> OptimizedCompilationInfo -> bool.

(** X6.  [optimization_id()] answers the same before and after any run of
    inline operations: it is rejected exactly in a debug build on a
    descriptor that is not an optimizing job, and returns the stored
    id otherwise. *)
Theorem optimization_id_is_settled_at_construction b ops d d' :
  forallb defined_inline ops = true ->
  run FlagSetIsValid b ops d = Ok d' ->
  (forall b', optimization_id b' d' = optimization_id b' d)
  /\ (forall b', optimization_id b' d' = Fatal
                 <-> b' = DebugBuild /\ IsOptimizing d = false)
  /\ (forall b', b' = ReleaseBuild \/ IsOptimizing d = true ->
                 optimization_id b' d' = Ok (optimization_id_ d)).
Proof.
  intros _ Hrun. apply run_preserved in Hrun. destruct Hrun as (HK & HI & _).
  assert (Hopt : IsOptimizing d' = IsOptimizing d)
    by (unfold IsOptimizing, code_kind; rewrite HK; reflexivity).
  assert (Hsame : forall b', optimization_id b' d' = optimization_id b' d).
  { intro b'. unfold optimization_id. rewrite Hopt, HI. reflexivity. }
  split; [exact Hsame | split].
  - intro b'. rewrite Hsame. apply optimization_id_returns.
  - intros b' Hok. rewrite Hsame. unfold optimization_id, DCHECK.
    destruct Hok as [Hb | Ho].
    + subst b'. reflexivity.
    + rewrite Ho. destruct b'; reflexivity.
Qed.

End JobId.

(** ** Registering an inlined function id *)

Lemma static_cast_int_range z : - 2 ^ 31 <= static_cast_int z < 2 ^ 31.
Proof.
  unfold static_cast_int.
  assert (H := Z.mod_pos_bound (z + 2 ^ 31) (2 ^ 32) ltac:(lia)).
  change (2 ^ 32) with (2 ^ 31 + 2 ^ 31) in *. lia.
Qed.

Lemma static_cast_int_congruent z : (static_cast_int z - z) mod 2 ^ 32 = 0.
Proof.
  unfold static_cast_int.
  rewrite (Z.mod_eq (z + 2 ^ 31) (2 ^ 32)) by lia.
  replace (z + 2 ^ 31 - 2 ^ 32 * ((z + 2 ^ 31) / 2 ^ 32) - 2 ^ 31 - z)
    with (- ((z + 2 ^ 31) / 2 ^ 32) * 2 ^ 32) by ring.
  apply Z.mod_mul. lia.
Qed.

(** X7.  [RegisterInlinedFunctionId] keeps the two references and the source
    position of a ledger entry and replaces its id.  The stored id is
    an [int] congruent to the argument modulo 2^32; it is the argument
    exactly when that lies in the [int] range, so a [size_t] from 2^31
    on is stored as a different number.  Registering again overwrites
    the earlier id. *)
Theorem RegisterInlinedFunctionId_stores_an_int id h :
  let h' := InlinedFunctionHolder.RegisterInlinedFunctionId id h in
  InlinedFunctionHolder.shared_info h' = InlinedFunctionHolder.shared_info h
  /\ InlinedFunctionHolder.bytecode_array h' = InlinedFunctionHolder.bytecode_array h
  /\ InliningPosition.position (InlinedFunctionHolder.position h')
     = InliningPosition.position (InlinedFunctionHolder.position h)
  /\ - 2 ^ 31 <= holder_id h' < 2 ^ 31
  /\ (holder_id h' - id) mod 2 ^ 32 = 0
  /\ (holder_id h' = id <-> - 2 ^ 31 <= id < 2 ^ 31)
  /\ (2 ^ 31 <= id < 2 ^ 32 -> holder_id h' = id - 2 ^ 32)
  /\ (forall id0,
        InlinedFunctionHolder.RegisterInlinedFunctionId id
          (InlinedFunctionHolder.RegisterInlinedFunctionId id0 h) = h').
Proof.
  cbv zeta. unfold holder_id, InlinedFunctionHolder.RegisterInlinedFunctionId.
  cbn [InlinedFunctionHolder.shared_info InlinedFunctionHolder.bytecode_array
       InlinedFunctionHolder.position InliningPosition.position
       InliningPosition.inlined_function_id].
  split; [reflexivity | split; [reflexivity | split; [reflexivity | ]]].
  split; [apply static_cast_int_range | ].
  split; [apply static_cast_int_congruent | ].
  split; [ | split; [ | reflexivity]].
  - split; intro H.
    + rewrite <- H. apply static_cast_int_range.
    + unfold static_cast_int.
      rewrite Z.mod_small by (change (2 ^ 32) with (2 ^ 31 + 2 ^ 31); lia). lia.
  - intro H. unfold static_cast_int.
    replace (id + 2 ^ 31) with (id - 2 ^ 31 + 1 * 2 ^ 32) by ring.
    rewrite Z.mod_add by lia.
    rewrite Z.mod_small by (change (2 ^ 32) with (2 ^ 31 + 2 ^ 31) in *; lia).
    lia.
Qed.

(** ** The flag word *)


Lemma GetFlag_SetFlag_iff F G d :
  GetFlag G (SetFlag F d) = true <-> GetFlag G d = true \/ G = F.
Proof.
  destruct (Flag_eq_dec F G) as [E | E].
  - subst G. rewrite GetFlag_SetFlag_same. tauto.
  - rewrite (GetFlag_SetFlag_other F G d E). split; [tauto | ].
    intros [H | H]; [exact H | elim E; symmetry; exact H].
Qed.

Lemma GetFlag_set_each fs : forall d G,
  GetFlag G (set_each fs d) = true <-> GetFlag G d = true \/ In G fs.
Proof.
  unfold set_each. induction fs as [ | f fs IH]; simpl; intros d G.
  - tauto.
  - rewrite IH, GetFlag_SetFlag_iff. split.
    + intros [[H | H] | H]; [left; exact H | right; left; symmetry; exact H | tauto].
    + intros [H | [H | H]]; [tauto | left; right; symmetry; exact H | tauto].
Qed.

Lemma set_each_members fs : forall d, set_each fs d = with_flags (flags_ (set_each fs d)) d.
Proof.
  unfold set_each. induction fs as [ | f fs IH]; simpl; intro d.
  - symmetry. apply with_flags_same.
  - rewrite (IH (SetFlag f d)) at 1. unfold SetFlag. apply with_flags_twice.
Qed.


Lemma DEF_ENUM_range F : 1 <= DEF_ENUM F <= 2 ^ 22.
Proof. destruct F; vm_compute; split; discriminate. Qed.

Lemma testbit_high a i : 0 <= a < 2 ^ 23 -> 23 <= i -> Z.testbit a i = false.
Proof.
  intros Ha Hi. destruct (Z.eq_dec a 0) as [E | E].
  - subst a. apply Z.bits_0.
  - apply Z.bits_above_log2; [lia | ].
    assert (Z.log2 a < 23) by (apply Z.log2_lt_pow2; lia). lia.
Qed.

Lemma SetFlag_range F d :
  0 <= flags_ d < 2 ^ 23 -> 0 <= flags_ (SetFlag F d) < 2 ^ 23.
Proof.
  intro H. unfold SetFlag. rewrite flags_with_flags.
  assert (HF := DEF_ENUM_range F).
  assert (Hnn : 0 <= Z.lor (flags_ d) (DEF_ENUM F)) by (apply Z.lor_nonneg; lia).
  split; [exact Hnn | ].
  assert (Hpos : 0 < Z.lor (flags_ d) (DEF_ENUM F)).
  { destruct (Z.eq_dec (Z.lor (flags_ d) (DEF_ENUM F)) 0) as [E | E]; [ | lia].
    apply Z.lor_eq_0_iff in E. lia. }
  apply Z.log2_lt_pow2; [exact Hpos | ].
  rewrite Z.log2_lor by lia.
  assert (Z.log2 (DEF_ENUM F) < 23) by (apply Z.log2_lt_pow2; lia).
  assert (Z.log2 (flags_ d) < 23).
  { destruct (Z.eq_dec (flags_ d) 0) as [E | E].
    - rewrite E. simpl. lia.
    - apply Z.log2_lt_pow2; lia. }
  lia.
Qed.

Lemma testbit_flag_term (c : bool) F i :
  Z.testbit (if c then DEF_ENUM F else 0) i = c && (Bit F =? i).
Proof.
  destruct c; [apply DEF_ENUM_bits | apply Z.bits_0].
Qed.

Lemma flag_word_of_bits (f : Z -> bool) i :
  0 <= i ->
  (forall j, 23 <= j -> f j = false) ->
  Z.testbit (flag_word_of (fun F => f (Bit F))) i = f i.
Proof.
  intros Hi Hhigh. unfold flag_word_of, all_flags. cbn [fold_right].
  rewrite !Z.lor_spec, !testbit_flag_term, Z.bits_0. cbn [Bit].
  repeat match goal with
  | |- context [(?k =? i)] =>
      let E := fresh "E" in
      destruct (Z.eqb_spec k i) as [E | E];
        [ subst i; cbn [Z.eqb Pos.eqb];
          rewrite ?andb_false_r, ?andb_true_r; cbn [orb];
          rewrite ?orb_false_r; reflexivity | ]
  end.
  rewrite ?andb_false_r. cbn [orb]. symmetry. apply Hhigh. lia.
Qed.

Section FlagWord.

Variables FlagGetIsValid FlagSetIsValid : Flag -> OptimizedCompilationInfo -> bool.

Lemma run_set_flags b fs : forall d d',
  run FlagSetIsValid b (map op_set_flag fs) d = Ok d' -> d' = set_each fs d.
Proof.
  unfold set_each. induction fs as [ | f fs IH]; simpl; intros d d' H.
  - injection H as H. symmetry. exact H.
  - destruct (DEF_SETTER FlagSetIsValid b f d) as [d1 | ] eqn:Hset; simpl in H;
      [ | discriminate H].
    apply DEF_SETTER_Ok in Hset. subst d1. apply IH. exact H.
Qed.

(** X8.  After the setters of a list of flags have run, a flag is set
    exactly when it was set before or is in the list; nothing but the
    flag word has changed, and the getter of a listed flag, where it
    returns, returns true. *)
Theorem flag_setters_accumulate b fs d d' :
  run FlagSetIsValid b (map op_set_flag fs) d = Ok d' ->
  (forall G, GetFlag G d' = true <-> GetFlag G d = true \/ In G fs)
  /\ d' = with_flags (flags_ d') d
  /\ (forall G b' v, In G fs -> DEF_GETTER FlagGetIsValid b' G d' = Ok v -> v = true)
  /\ (forall G, In G fs -> DEF_GETTER FlagGetIsValid ReleaseBuild G d' = Ok true).
Proof.
  intro H. apply run_set_flags in H. subst d'.
  split; [intro G; apply GetFlag_set_each | split; [apply set_each_members | split]].
  - intros G b' v Hin Hv. apply DEF_GETTER_Ok in Hv. rewrite Hv.
    apply GetFlag_set_each. right. exact Hin.
  - intros G Hin. rewrite DEF_GETTER_release. f_equal.
    apply GetFlag_set_each. right. exact Hin.
Qed.


Lemma step_inline_flag_range b op d d' :
  defined_inline op = true ->
  0 <= flags_ d < 2 ^ 23 ->
  step FlagSetIsValid b op d = Ok d' ->
  0 <= flags_ d' < 2 ^ 23.
Proof.
  intros Hinl Hr H.
  destruct op; try discriminate Hinl;
    try (assert (Hsame : same m_flags d d')
           by (apply (step_inline_footprint FlagSetIsValid b _ d d' Hinl H);
               simpl; intuition discriminate);
         simpl in Hsame; rewrite Hsame; exact Hr).
  simpl in H. apply DEF_SETTER_Ok in H. subst d'. apply SetFlag_range. exact Hr.
Qed.

(** X10.  The flag word never leaves the low 23 bits: every enum constant
    lies between 1 and 2^22, the default member initializer is 0, and
    a run of inline operations takes a flag word below 2^23 to a flag
    word below 2^23.  So [flags_ |= flag] never overflows the
    [unsigned] member. *)
Theorem flag_word_stays_below_2_23 b ops : forall d d',
  forallb defined_inline ops = true ->
  0 <= flags_ d < 2 ^ 23 ->
  run FlagSetIsValid b ops d = Ok d' ->
  0 <= flags_ d' < 2 ^ 23
  /\ (forall F, 1 <= DEF_ENUM F <= 2 ^ 22)
  /\ (forall kind z id, flags_ (member_defaults kind z id) = 0).
Proof.
  intros d d' Hinl Hr Hrun.
  split; [ | split; [apply DEF_ENUM_range | reflexivity]].
  revert d Hinl Hr Hrun. induction ops as [ | op ops IH]; simpl; intros d Hinl Hr Hrun.
  - injection Hrun as Hrun. subst d'. exact Hr.
  - apply andb_true_iff in Hinl. destruct Hinl as [Hop Hops].
    destruct (step FlagSetIsValid b op d) as [d1 | ] eqn:Hstep; simpl in Hrun;
      [ | discriminate Hrun].
    apply (IH d1 Hops); [ | exact Hrun].
    apply (step_inline_flag_range b op d d1 Hop Hr Hstep).
Qed.

End FlagWord.

(** X11.  A flag word below 2^23 is what the 23 getters say and nothing
    more: it is rebuilt from the answers of [GetFlag], and two
    descriptors whose flags all agree have the same flag word. *)
Theorem flag_word_is_determined_by_the_getters d :
  0 <= flags_ d < 2 ^ 23 ->
  flags_ d = flag_word_of (fun F => GetFlag F d)
  /\ (forall d', 0 <= flags_ d' < 2 ^ 23 ->
        (forall F, GetFlag F d' = GetFlag F d) -> flags_ d' = flags_ d).
Proof.
  assert (Hword : forall x, 0 <= flags_ x < 2 ^ 23 ->
                    flags_ x = flag_word_of (fun F => GetFlag F x)).
  { intros x Hx. apply Z.bits_inj'. intros i Hi.
    replace (flag_word_of (fun F => GetFlag F x))
      with (flag_word_of (fun F => Z.testbit (flags_ x) (Bit F))).
    - symmetry. apply (flag_word_of_bits (Z.testbit (flags_ x))); [exact Hi | ].
      intros j Hj. apply testbit_high; assumption.
    - unfold flag_word_of, all_flags. cbn [fold_right].
      rewrite !GetFlag_testbit. reflexivity. }
  intro Hr. split; [apply Hword; exact Hr | ].
  intros d' Hr' Hsame. rewrite (Hword d' Hr'), (Hword d Hr).
  unfold flag_word_of, all_flags. cbn [fold_right]. rewrite !Hsame. reflexivity.
Qed.

(** ** Instances *)

Example inline_run_returns :
  run optimizing_only DebugBuild inline_run function_job = Ok inline_run_result.
Proof. reflexivity. Qed.

Lemma inline_operations_write_their_member_only_witness :
  forallb defined_inline inline_run = true
  /\ run optimizing_only DebugBuild inline_run function_job = Ok inline_run_result
  /\ bailout_reason inline_run_result = bailout_reason function_job.
Proof.
  assert (Hinl : forallb defined_inline inline_run = true) by reflexivity.
  assert (Hrun : run optimizing_only DebugBuild inline_run function_job
                 = Ok inline_run_result) by reflexivity.
  split; [exact Hinl | split; [exact Hrun | ]].
  exact (proj1 (proj2 (proj2 (proj2 (proj2
           (inline_operations_write_their_member_only optimizing_only DebugBuild
              inline_run function_job inline_run_result Hinl Hrun)))))).
Defined.

Lemma debug_build_rejects_or_agrees_with_release_build_witness :
  forallb defined_inline inline_run = true
  /\ (run optimizing_only DebugBuild inline_run stub_job = Fatal
      \/ run optimizing_only DebugBuild inline_run stub_job
         = run optimizing_only ReleaseBuild inline_run stub_job).
Proof.
  assert (Hinl : forallb defined_inline inline_run = true) by reflexivity.
  split; [exact Hinl | ].
  exact (proj1 (proj1 (debug_build_rejects_or_agrees_with_release_build
                         optimizing_only optimizing_only)
                  inline_run stub_job Hinl)).
Defined.

Lemma osr_compile_is_optimizing_job_in_debug_build_witness :
  forallb defined_inline inline_run = true
  /\ osr_consistent function_job = true
  /\ run optimizing_only DebugBuild inline_run function_job = Ok inline_run_result
  /\ (is_osr inline_run_result = true -> IsOptimizing inline_run_result = true).
Proof.
  assert (Hinl : forallb defined_inline inline_run = true) by reflexivity.
  assert (Hc : osr_consistent function_job = true) by reflexivity.
  assert (Hrun : run optimizing_only DebugBuild inline_run function_job
                 = Ok inline_run_result) by reflexivity.
  split; [exact Hinl | split; [exact Hc | split; [exact Hrun | ]]].
  exact (proj1 (osr_compile_is_optimizing_job_in_debug_build optimizing_only
                  inline_run function_job inline_run_result Hinl Hc Hrun)).
Defined.

Lemma release_build_marks_any_job_for_osr_witness :
  IsOptimizing stub_job = false
  /\ BailoutIdOps.IsNone loop_entry = false
  /\ SetOptimizingForOsr DebugBuild loop_entry (Some 9%nat) stub_job = Fatal
  /\ SetOptimizingForOsr ReleaseBuild loop_entry (Some 9%nat) stub_job
     = Ok (with_osr_frame (Some 9%nat) (with_osr_offset loop_entry stub_job)).
Proof.
  assert (Hopt : IsOptimizing stub_job = false) by reflexivity.
  assert (Hnone : BailoutIdOps.IsNone loop_entry = false) by reflexivity.
  split; [exact Hopt | split; [exact Hnone | ]].
  destruct (release_build_marks_any_job_for_osr loop_entry (Some 9%nat) stub_job
              Hopt Hnone) as (Hdbg & Hrel & _).
  split; [exact Hdbg | exact Hrel].
Defined.

Lemma SetOptimizingForOsr_then_is_osr_witness :
  SetOptimizingForOsr DebugBuild BailoutIdOps.None_ (Some 9%nat) function_job
    = Ok (with_osr_frame (Some 9%nat) (with_osr_offset BailoutIdOps.None_ function_job))
  /\ is_osr (with_osr_frame (Some 9%nat) (with_osr_offset BailoutIdOps.None_ function_job))
     = false.
Proof.
  assert (H : SetOptimizingForOsr DebugBuild BailoutIdOps.None_ (Some 9%nat) function_job
              = Ok (with_osr_frame (Some 9%nat)
                      (with_osr_offset BailoutIdOps.None_ function_job)))
    by reflexivity.
  split; [exact H | ].
  exact (proj1 (SetOptimizingForOsr_then_is_osr DebugBuild BailoutIdOps.None_
                  (Some 9%nat) function_job _ H)).
Defined.

Lemma optimization_id_is_settled_at_construction_witness :
  forallb defined_inline inline_run = true
  /\ run optimizing_only DebugBuild inline_run function_job = Ok inline_run_result
  /\ optimization_id DebugBuild inline_run_result = Ok 7.
Proof.
  assert (Hinl : forallb defined_inline inline_run = true) by reflexivity.
  assert (Hrun : run optimizing_only DebugBuild inline_run function_job
                 = Ok inline_run_result) by reflexivity.
  split; [exact Hinl | split; [exact Hrun | ]].
  exact (proj2 (proj2 (optimization_id_is_settled_at_construction optimizing_only
                         DebugBuild inline_run function_job inline_run_result
                         Hinl Hrun))
           DebugBuild (or_intror eq_refl)).
Defined.

Lemma RegisterInlinedFunctionId_stores_an_int_witness :
  2 ^ 31 <= 2 ^ 31 < 2 ^ 32
  /\ holder_id (InlinedFunctionHolder.RegisterInlinedFunctionId (2 ^ 31)
                  (registered_holder 0 anonymous_call))
     = 2 ^ 31 - 2 ^ 32.
Proof.
  assert (H : 2 ^ 31 <= 2 ^ 31 < 2 ^ 32) by (split; [apply Z.le_refl | reflexivity]).
  split; [exact H | ].
  exact (proj1 (proj2 (proj2 (proj2 (proj2 (proj2 (proj2
           (RegisterInlinedFunctionId_stores_an_int (2 ^ 31)
              (registered_holder 0 anonymous_call)))))))) H).
Defined.

Lemma flag_setters_accumulate_witness :
  run optimizing_only DebugBuild (map op_set_flag [kSplitting; kInlining]) function_job
    = Ok (with_flags 74 function_job)
  /\ (GetFlag kSplitting (with_flags 74 function_job) = true
      <-> GetFlag kSplitting function_job = true \/ In kSplitting [kSplitting; kInlining]).
Proof.
  assert (H : run optimizing_only DebugBuild (map op_set_flag [kSplitting; kInlining])
                function_job = Ok (with_flags 74 function_job)) by reflexivity.
  split; [exact H | ].
  exact (proj1 (flag_setters_accumulate optimizing_only optimizing_only DebugBuild
                  [kSplitting; kInlining] function_job _ H) kSplitting).
Defined.


Lemma flag_word_stays_below_2_23_witness :
  forallb defined_inline inline_run = true
  /\ 0 <= flags_ function_job < 2 ^ 23
  /\ run optimizing_only DebugBuild inline_run function_job = Ok inline_run_result
  /\ 0 <= flags_ inline_run_result < 2 ^ 23.
Proof.
  assert (Hinl : forallb defined_inline inline_run = true) by reflexivity.
  assert (Hr : 0 <= flags_ function_job < 2 ^ 23)
    by (split; [discriminate | reflexivity]).
  assert (Hrun : run optimizing_only DebugBuild inline_run function_job
                 = Ok inline_run_result) by reflexivity.
  split; [exact Hinl | split; [exact Hr | split; [exact Hrun | ]]].
  exact (proj1 (flag_word_stays_below_2_23 optimizing_only DebugBuild inline_run
                  function_job inline_run_result Hinl Hr Hrun)).
Defined.

Lemma flag_word_is_determined_by_the_getters_witness :
  0 <= flags_ function_job < 2 ^ 23
  /\ flags_ function_job = flag_word_of (fun F => GetFlag F function_job).
Proof.
  assert (Hr : 0 <= flags_ function_job < 2 ^ 23)
    by (split; [discriminate | reflexivity]).
  split; [exact Hr | ].
  exact (proj1 (flag_word_is_determined_by_the_getters function_job Hr)).
Defined.
